(** * Sentry: bit-flag fields, inbound-filter endpoint, PR comments, GitLab glue

    A shallow embedding of the parts of the repository that its
    specification talks about, with the properties proved on the
    embedding.  Python exceptions are modelled by a result type; loops
    by folds that follow the iteration order of the source. *)

From Stdlib Require Import ZArith Lia List Bool Ascii.
From stdpp Require Import gmap strings list.

Local Open Scope string_scope.
Local Open Scope list_scope.
Local Open Scope Z_scope.

Set Warnings "-register-all".

(** ** Python results: a value or a raised exception *)

Inductive result (E A : Type) : Type :=
| Ok (a : A)
| Raise (e : E).
Arguments Ok {E A} a.
Arguments Raise {E A} e.

Definition bind {E A B} (r : result E A) (k : A -> result E B) : result E B :=
  match r with
  | Ok a => k a
  | Raise e => Raise e
  end.

Notation "x <- r ;; k" := (bind r (fun x => k))
  (at level 100, r at next level, right associativity).

(** ** bitfield/models.py *)

Module Bitfield.

(** Exceptions raised on the paths modelled here, one constructor per
    raise site. *)
Inductive exn : Type :=
| TooManyFlags            (* ValueError("Too many flags") *)
| EmptyMax                (* ValueError of max() on an empty iterable *)
| NotInList (x : string)  (* ValueError of list.index *)
| IndexError              (* flag[0] / flag[1] on a short tuple *)
| AttributeError.         (* BitFieldFlags.__getattr__ *)

(** Python's [bin] on integers. *)
Fixpoint pos_bin (p : positive) : string :=
  match p with
  | xH => "1"
  | xO q => pos_bin q +:+ "0"
  | xI q => pos_bin q +:+ "1"
  end.

Definition bin (z : Z) : string :=
  match z with
  | Z0 => "0b0"
  | Zpos p => "0b" +:+ pos_bin p
  | Zneg p => "-0b" +:+ pos_bin p
  end.

(** Modelled from the spec: django's [BigIntegerField.MAX_BIGINT] is not
    part of the sources; it is the largest signed 64-bit integer, whose
    bit length is 63. *)
Definition MAX_BIGINT : Z := 9223372036854775807.

Definition MAX_FLAG_COUNT : Z := Z.of_nat (String.length (bin MAX_BIGINT)) - 2.

(** Modelled from the spec: [bitfield.types.Bit] is not part of the
    sources.  [Bit(i)] stands for bit number [i]; its mask is [2^i], the
    complement of that when the bit is not set, [~Bit] flips [is_set],
    and [x | Bit(i)] ors the mask into the integer [x]. *)
Record Bit : Type := mkBit { number : nat; is_set : bool }.

Definition Bit_new (n : nat) : Bit := mkBit n true.

Definition mask (b : Bit) : Z :=
  if is_set b then 2 ^ Z.of_nat (number b) else Z.lnot (2 ^ Z.of_nat (number b)).

Definition Bit_invert (b : Bit) : Bit := mkBit (number b) (negb (is_set b)).

Definition int_or_Bit (x : Z) (b : Bit) : Z := Z.lor x (mask b).

(** Modelled from the spec: [bitfield.types.BitHandler] is not part of
    the sources; a handler is the record of the three arguments it is
    built from. *)
Record BitHandler : Type := BitHandler_new
  { _value : option Z; _keys : list string; _labels : list string }.

(** [list.index] and the [in] test on lists of flag names. *)
Fixpoint index (x : string) (l : list string) : option nat :=
  match l with
  | [] => None
  | y :: l' => if String.eqb y x then Some O else option_map S (index x l')
  end.

Definition list_index (x : string) (l : list string) : result exn nat :=
  match index x l with
  | Some i => Ok i
  | None => Raise (NotInList x)
  end.

Definition contains (x : string) (l : list string) : bool :=
  match index x l with Some _ => true | None => false end.

(** *** BitFieldFlags *)

Record BitFieldFlags : Type := mkBitFieldFlags { _flags : list string }.

Definition BitFieldFlags_init (flags : list string) : result exn BitFieldFlags :=
  if Z.of_nat (length flags) >? MAX_FLAG_COUNT then Raise TooManyFlags
  else Ok (mkBitFieldFlags flags).

Definition BitFieldFlags_getattr (self : BitFieldFlags) (key : string) : result exn Bit :=
  if negb (contains key (_flags self)) then Raise AttributeError
  else i <- list_index key (_flags self) ;; Ok (Bit_new i).

Definition BitFieldFlags_getitem := BitFieldFlags_getattr.

(** *** BitField *)

(** An entry of the [flags] argument: a name, or a tuple/list whose first
    two components are the name and its label. *)
Inductive flag_item : Type :=
| FName (s : string)
| FTuple (l : list string).

(** The [flags] argument: a sequence, or a dict (of which only the
    integer keys are ever read). *)
Inductive flags_arg : Type :=
| FlagsSeq (l : list flag_item)
| FlagsDict (d : gmap Z flag_item).

(** The [default] argument: [None], an integer, or a list, tuple, set or
    frozenset of flag names, given in iteration order. *)
Inductive default_arg : Type :=
| DNone
| DInt (z : Z)
| DColl (l : list string).

Record BitField : Type := mkBitField
  { _arg_flags : list flag_item;
    flags : list string;
    labels : list string;
    default : default_arg }.

(** [max] of an iterable of integers. *)
Definition py_max (l : list Z) : result exn Z :=
  match l with
  | [] => Raise EmptyMax
  | x :: l' => Ok (fold_left Z.max l' x)
  end.

(** [range(n)] as integers. *)
Definition range (n : Z) : list Z := map Z.of_nat (seq 0 (Z.to_nat n)).

(** The dict branch of [__init__].  The emptiness test of the source is
    made on a generator object, which is always true, so its [raise] is
    never reached; an empty selection fails in [max]. *)
Definition flags_of_dict (d : gmap Z flag_item) : result exn (list flag_item) :=
  let valid_keys :=
    List.filter (fun k : Z => (0 <=? k) && (k <? MAX_FLAG_COUNT))
      (map fst (map_to_list d)) in
  m <- py_max valid_keys ;;
  Ok (map (fun i => match d !! i with Some v => v | None => FName EmptyString end) (range (m + 1))).

(** The loop over [enumerate(flags)]: names replace the tuples in
    [flags], labels are collected. *)
Fixpoint split_labels (l : list flag_item) : result exn (list string * list string) :=
  match l with
  | [] => Ok ([], [])
  | FName s :: l' =>
      nl <- split_labels l' ;; Ok (s :: fst nl, s :: snd nl)
  | FTuple t :: l' =>
      match t with
      | name :: label :: _ =>
          nl <- split_labels l' ;; Ok (name :: fst nl, label :: snd nl)
      | _ => Raise IndexError
      end
  end.

(** The loop [for flag in default: new_value |= Bit(flags.index(flag))]. *)
Fixpoint pack_from (new_value : Z) (flags : list string) (default : list string)
  : result exn Z :=
  match default with
  | [] => Ok new_value
  | flag :: rest =>
      i <- list_index flag flags ;;
      pack_from (int_or_Bit new_value (Bit_new i)) flags rest
  end.

Definition BitField_init (flags : flags_arg) (default : default_arg)
  : result exn BitField :=
  flags <- match flags with
           | FlagsDict d => flags_of_dict d
           | FlagsSeq l => Ok l
           end ;;
  if Z.of_nat (length flags) >? MAX_FLAG_COUNT then Raise TooManyFlags
  else
    let _arg_flags := flags in
    nl <- split_labels flags ;;
    let flags := fst nl in
    let labels := snd nl in
    default <- match default with
               | DColl l => new_value <- pack_from 0 flags l ;; Ok (DInt new_value)
               | d => Ok d
               end ;;
    Ok (mkBitField _arg_flags flags labels default).

(** The value handed to [to_python]. *)
Inductive py_value : Type :=
| PNone
| PInt (z : Z)
| PBit (b : Bit)
| PHandler (h : BitHandler).

(** The loop [for bit_number, _ in enumerate(self.flags):
    new_value |= value & (2**bit_number)]. *)
Fixpoint visible_from (new_value : Z) (value : Z) (bit_number : nat)
  (flags : list string) : Z :=
  match flags with
  | [] => new_value
  | _ :: rest =>
      visible_from (Z.lor new_value (Z.land value (2 ^ Z.of_nat bit_number)))
        value (S bit_number) rest
  end.

Definition to_python (self : BitField) (value : py_value) : BitHandler :=
  let value := match value with PBit b => PInt (mask b) | v => v end in
  match value with
  | PHandler h => BitHandler_new (_value h) (flags self) (_labels h)
  | PInt z =>
      let z := if z <? 0 then visible_from 0 z 0 (flags self) else z in
      BitHandler_new (Some z) (flags self) (labels self)
  | _ => BitHandler_new None (flags self) (labels self)
  end.

(** *** The integers the specification speaks of

    Stated independently of the loops above, to compare them with. *)

(** The integer that the spec describes: the bits [2^i] of a list of
    indices, or-ed together. *)
Definition or_of_bits (indices : list nat) : Z :=
  fold_right (fun i acc => Z.lor (2 ^ Z.of_nat i) acc) 0 indices.

(** The integer that the spec describes: the bitwise OR of [n & 2^b] over
    the bit positions [b] from [0] to [k-1]. *)
Definition or_of_visible (n : Z) (k : nat) : Z :=
  fold_right Z.lor 0 (map (fun b => Z.land n (2 ^ Z.of_nat b)) (seq 0 k)).

End Bitfield.

(** ** sentry/integrations/gitlab/integration.py *)

Module Gitlab.

(** Python values as they occur in JSON payloads and pipeline state. *)
Inductive pyval : Type :=
| VNone
| VBool (b : bool)
| VInt (z : Z)
| VStr (s : string)
| VList (l : list pyval)
| VDict (d : gmap string pyval).

Inductive exn : Type :=
| KeyError (k : string)
| TypeError
| AttributeError
| ApiError
| IntegrationError (msg : string)
| Other (tag : string).  (* anything else a collaborator may raise *)

(** [key in data] and [data[key]] on a dict. *)
Definition has_key (k : string) (data : gmap string pyval) : bool :=
  match data !! k with Some _ => true | None => false end.

Definition getitem (data : gmap string pyval) (k : string) : result exn pyval :=
  match data !! k with Some v => Ok v | None => Raise (KeyError k) end.

(** [GitlabIntegration.error_message_from_json]; falling off the end of
    the function returns [None]. *)
Definition error_message_from_json (data : gmap string pyval) : result exn pyval :=
  if has_key "message" data then getitem data "message"
  else if has_key "error" data then getitem data "error"
  else Ok VNone.

(** Subscripting and [.get] on a value that has to be a dict. *)
Definition subscript (v : pyval) (k : string) : result exn pyval :=
  match v with
  | VDict d => getitem d k
  | _ => Raise TypeError
  end.

Definition dict_get (v : pyval) (k : string) (dflt : pyval) : result exn pyval :=
  match v with
  | VDict d => Ok (match d !! k with Some x => x | None => dflt end)
  | _ => Raise AttributeError
  end.

(** Truth value of a Python value. *)
Definition truthy (v : pyval) : bool :=
  match v with
  | VNone => false
  | VBool b => b
  | VInt z => negb (z =? 0)
  | VStr s => negb (String.eqb s EmptyString)
  | VList l => match l with [] => false | _ => true end
  | VDict d => negb (bool_decide (d = ∅))
  end.

(** [sorted] on strings: a stable insertion sort by code-point order. *)
Fixpoint insert_sorted (x : string) (l : list string) : list string :=
  match l with
  | [] => [x]
  | y :: l' => if String.leb x y then x :: l else y :: insert_sorted x l'
  end.

Definition sorted (l : list string) : list string :=
  fold_right insert_sorted [] l.

(** [s.rstrip("/")]. *)
Fixpoint rstrip_slash (s : string) : string :=
  match s with
  | EmptyString => EmptyString
  | String c s' =>
      match rstrip_slash s' with
      | EmptyString => if Ascii.eqb c "/"%char then EmptyString else String c EmptyString
      | r => String c r
      end
  end.

(** [GitlabIntegrationProvider.build_integration] and its helper
    [get_group_info]. *)
Section BuildIntegration.

(** Pure library functions the method uses, taken as parameters:
    [sha1_text(s).hexdigest()], [urlparse(url).netloc], [str] on values
    that are not strings, and the provider's [oauth_scopes]. *)
Variable sha1_hexdigest : string -> string.
Variable urlparse_netloc : string -> string.
Variable py_repr : pyval -> string.
Variable oauth_scopes : list string.

(** Collaborators that talk to GitLab; they may answer differently on
    every run. *)
Record env : Type := mkEnv
  { get_oauth_data : pyval -> result exn (gmap string pyval);
    get_user_info : pyval -> pyval -> result exn pyval;
    client_get_group :
      pyval (* base_url *) -> pyval (* access_token *) -> pyval (* verify_ssl *) ->
      pyval (* group *) -> result exn pyval }.

(** What ["{}".format(v)] prints. *)
Definition to_str (v : pyval) : string :=
  match v with VStr s => s | _ => py_repr v end.

(** The [join] of the two-item list [[a, b]] on the empty string: both
    items have to be strings. *)
Definition join2 (a b : pyval) : result exn string :=
  match a, b with
  | VStr x, VStr y => Ok (x +:+ y)
  | _, _ => Raise TypeError
  end.

Definition get_group_info (e : env) (access_token installation_data : pyval)
  : result exn pyval :=
  url <- subscript installation_data "url" ;;
  verify_ssl <- subscript installation_data "verify_ssl" ;;
  group <- subscript installation_data "group" ;;
  match client_get_group e url access_token verify_ssl group with
  | Ok json => Ok json
  | Raise ApiError =>
      _ <- subscript installation_data "url" ;;
      _ <- subscript installation_data "verify_ssl" ;;
      _ <- subscript installation_data "group" ;;
      _ <- subscript installation_data "include_subgroups" ;;
      Raise (IntegrationError "The requested GitLab group could not be found.")
  | Raise other => Raise other
  end.

Definition build_integration (e : env) (state : gmap string pyval)
  : result exn (gmap string pyval) :=
  identity <- getitem state "identity" ;;
  data <- subscript identity "data" ;;
  let oauth_config :=
    match state !! "oauth_config_information" with Some v => v | None => VDict ∅ end in
  oauth <- get_oauth_data e data ;;
  client_id <- dict_get oauth_config "client_id" VNone ;;
  client_secret <- dict_get oauth_config "client_secret" VNone ;;
  let oauth_data := <["client_secret" := client_secret]> (<["client_id" := client_id]> oauth) in
  access_token <- subscript data "access_token" ;;
  installation_data <- getitem state "installation_data" ;;
  user <- get_user_info e access_token installation_data ;;
  let scopes := VList (map VStr (sorted oauth_scopes)) in
  base_url <- subscript installation_data "url" ;;
  wants_group <- dict_get installation_data "group" VNone ;;
  group_info <-
    (if truthy wants_group then
       group <- get_group_info e access_token installation_data ;;
       include_subgroups <- subscript installation_data "include_subgroups" ;;
       Ok (group, include_subgroups)
     else Ok (VDict ∅, VBool false)) ;;
  let group := fst group_info in
  let include_subgroups := snd group_info in
  (* a base_url that is not a str fails in urlparse or in the join below *)
  hostname <- match base_url with
              | VStr u => Ok (urlparse_netloc u)
              | _ => Raise TypeError
              end ;;
  verify_ssl <- subscript installation_data "verify_ssl" ;;
  inst_client_id <- subscript installation_data "client_id" ;;
  joined <- join2 (VStr hostname) inst_client_id ;;
  let secret := sha1_hexdigest joined in
  name <- dict_get group "full_name" (VStr hostname) ;;
  group_id <- dict_get group "id" (VStr "_instance_") ;;
  icon <- dict_get group "avatar_url" VNone ;;
  full_path <- dict_get group "full_path" (VStr EmptyString) ;;
  meta_group_id <- dict_get group "id" VNone ;;
  user_id <- subscript user "id" ;;
  Ok {[ "name" := name;
        "external_id" := VStr (hostname +:+ ":" +:+ to_str group_id);
        "metadata" := VDict
          {[ "icon" := icon;
             "instance" := VStr hostname;
             "domain_name" := VStr (rstrip_slash (hostname +:+ "/" +:+ to_str full_path));
             "scopes" := scopes;
             "verify_ssl" := verify_ssl;
             "base_url" := base_url;
             "webhook_secret" := VStr secret;
             "group_id" := meta_group_id;
             "include_subgroups" := include_subgroups ]};
        "user_identity" := VDict
          {[ "type" := VStr "gitlab";
             "external_id" := VStr (hostname +:+ ":" +:+ to_str user_id);
             "scopes" := scopes;
             "data" := VDict oauth_data ]} ]}.

(** The two inputs the webhook secret is computed from, and where the
    result carries it. *)
Definition hostname_of (state : gmap string pyval) : option string :=
  match state !! "installation_data" with
  | Some (VDict inst) =>
      match inst !! "url" with
      | Some (VStr u) => Some (urlparse_netloc u)
      | _ => None
      end
  | _ => None
  end.

Definition client_id_of (state : gmap string pyval) : option string :=
  match state !! "installation_data" with
  | Some (VDict inst) =>
      match inst !! "client_id" with
      | Some (VStr c) => Some c
      | _ => None
      end
  | _ => None
  end.

Definition webhook_secret_of (integration : gmap string pyval) : option pyval :=
  match integration !! "metadata" with
  | Some (VDict md) => md !! "webhook_secret"
  | _ => None
  end.

End BuildIntegration.

(** A sample installation for the examples below.  The digest and the
    URL parser are placeholders with the right types; the two
    environments differ in what GitLab answers. *)
Definition sample_digest (s : string) : string := "sha1(" +:+ s +:+ ")".
Definition sample_netloc (u : string) : string := "gitlab.example.com".
Definition sample_repr (v : pyval) : string := "?".

Definition sample_state : gmap string pyval :=
  {[ "identity" := VDict {[ "data" := VDict {[ "access_token" := VStr "token" ]} ]};
     "installation_data" := VDict
       {[ "url" := VStr "https://gitlab.example.com/";
          "verify_ssl" := VBool true;
          "client_id" := VStr "client";
          "include_subgroups" := VBool false ]} ]}.

Definition sample_env (user : Z) : env :=
  mkEnv (fun _ => Ok ∅)
        (fun _ _ => Ok (VDict {[ "id" := VInt user ]}))
        (fun _ _ _ _ => Raise ApiError).

Definition sample_build (user : Z) : result exn (gmap string pyval) :=
  build_integration sample_digest sample_netloc sample_repr ["api"]
    (sample_env user) sample_state.

End Gitlab.

(** ** sentry/web/frontend/organization_auth_settings.py *)

Module AuthSettings.
Import Bitfield.

Record OrganizationMember : Type := mkMember
  { member_id : Z;
    organization_id : Z;
    user_id : option Z;
    member_flags : Z }.

Record User : Type := mkUser { uid : Z; is_managed : bool }.

Record AuthProvider : Type := mkAuthProvider
  { provider_id : Z; provider : string; scim_enabled : bool }.

(** What the method does besides its two table updates, in order. *)
Inductive effect : Type :=
| AuditEntry (organization target_object : Z) (event : string)
| EmailUnlinkNotifications (organization user : Z) (provider : string)
| DisableScim (user : Z)
| DeleteAuthProvider (id : Z).

Record db : Type := mkDb
  { members : list OrganizationMember;
    users : list User;
    effects : list effect }.

Section DisableProvider.

(** The flag names of [OrganizationMember.flags]; the model class is
    not part of the sources. *)
Variable OrganizationMember_flags : list string.

(** [OrganizationMember.flags[key]]: the class-level descriptor access
    builds a [BitFieldFlags], which is then subscripted. *)
Definition member_flag (key : string) : result exn Bit :=
  fl <- BitFieldFlags_init OrganizationMember_flags ;;
  BitFieldFlags_getitem fl key.

(** [F("flags").bitand(a).bitand(b)] on one row. *)
Definition bitand2 (flags : Z) (a b : Bit) : Z :=
  Z.land (Z.land flags (mask a)) (mask b).

Definition _disable_provider
  (request_user : Z) (organization : Z) (auth_provider : AuthProvider) (s : db)
  : result exn db :=
  let log1 := effects s ++ [AuditEntry organization (provider_id auth_provider) "SSO_DISABLE"] in
  linked <- member_flag "sso:linked" ;;
  invalid <- member_flag "sso:invalid" ;;
  let members' :=
    map (fun m =>
           if organization_id m =? organization
           then mkMember (member_id m) (organization_id m) (user_id m)
                  (bitand2 (member_flags m) (Bit_invert linked) (Bit_invert invalid))
           else m)
        (members s) in
  let user_ids :=
    omap user_id (List.filter (fun m => organization_id m =? organization) members') in
  let users' :=
    map (fun u => if existsb (Z.eqb (uid u)) user_ids then mkUser (uid u) false else u)
        (users s) in
  let log2 :=
    log1 ++ [EmailUnlinkNotifications organization request_user (provider auth_provider)] in
  let log3 := if scim_enabled auth_provider then log2 ++ [DisableScim request_user] else log2 in
  Ok (mkDb members' users' (log3 ++ [DeleteAuthProvider (provider_id auth_provider)])).

End DisableProvider.

(** A sample table for the examples below. *)
Definition sample_flags : list string :=
  ["sso:linked"; "sso:invalid"; "member-limit:restricted"].

Definition sample_db : db :=
  mkDb [mkMember 1 10 (Some 100) 7; mkMember 2 10 None 2; mkMember 3 11 (Some 101) 3]
       [mkUser 100 true; mkUser 101 true] [].

End AuthSettings.

(** ** sentry/api/endpoints/project_filter_details.py *)

Module ProjectFilterDetails.

(** The Python values the handler computes with: filter states and what
    it derives from them. *)
Inductive value : Type :=
| VNone
| VBool (b : bool)
| VInt (z : Z)
| VStr (s : string)
| VSet (s : gset string)
| VList (l : list string).

Inductive exn : Type :=
| ResourceDoesNotExist
| TypeError.

(** [isinstance(v, bool)], [isinstance(v, list)], [isinstance(v, Iterable)]. *)
Definition is_bool (v : value) : bool :=
  match v with VBool _ => true | _ => false end.

Definition is_list (v : value) : bool :=
  match v with VList _ => true | _ => false end.

Definition is_iterable (v : value) : bool :=
  match v with VStr _ | VSet _ | VList _ => true | _ => false end.

(** [set(v)] on a list and [list(v)] on an iterable; a string is
    iterated character by character. *)
Definition py_set (v : value) : value :=
  match v with VList l => VSet (list_to_set l) | _ => v end.

Definition py_list (v : value) : value :=
  match v with
  | VStr s => VList (map (fun c => String c EmptyString) (String.list_ascii_of_string s))
  | VSet s => VList (elements s)
  | _ => v
  end.

(** Booleans count as the integers 0 and 1. *)
Definition as_int (v : value) : option Z :=
  match v with
  | VBool b => Some (if b then 1 else 0)
  | VInt z => Some z
  | _ => None
  end.

(** [a - b]: integer difference, set difference, or a TypeError. *)
Definition py_sub (a b : value) : result exn value :=
  match a, b with
  | VSet x, VSet y => Ok (VSet (x ∖ y))
  | _, _ =>
      match as_int a, as_int b with
      | Some x, Some y => Ok (VInt (x - y))
      | _, _ => Raise TypeError
      end
  end.

(** [a == b]. *)
Definition py_eq (a b : value) : bool :=
  match a, b with
  | VNone, VNone => true
  | VStr x, VStr y => String.eqb x y
  | VSet x, VSet y => bool_decide (x = y)
  | VList x, VList y => bool_decide (x = y)
  | _, _ =>
      match as_int a, as_int b with
      | Some x, Some y => x =? y
      | _, _ => false
      end
  end.

Definition truthy (v : value) : bool :=
  match v with
  | VNone => false
  | VBool b => b
  | VInt z => negb (z =? 0)
  | VStr s => negb (String.eqb s EmptyString)
  | VSet s => negb (bool_decide (s = ∅))
  | VList l => match l with [] => false | _ => true end
  end.

Inductive response (Errors : Type) : Type :=
| Response (data : option Errors) (status : Z).
Arguments Response {Errors} data status.

Inductive validation (Errors Validated : Type) : Type :=
| Valid (validated_data : Validated)
| Invalid (errors : Errors).
Arguments Valid {Errors Validated} validated_data.
Arguments Invalid {Errors Validated} errors.

Record filter_spec (Data Errors Validated : Type) : Type := mkFilterSpec
  { id : string;
    serializer_cls : Data -> validation Errors Validated }.
Arguments mkFilterSpec {Data Errors Validated} id serializer_cls.
Arguments id {Data Errors Validated} _.
Arguments serializer_cls {Data Errors Validated} _ _.

Record audit_entry : Type := mkAuditEntry
  { event : Z; data_state : value }.

Record world (Project : Type) : Type := mkWorld
  { project : Project; audit_log : list audit_entry }.
Arguments mkWorld {Project} project audit_log.
Arguments project {Project} _.
Arguments audit_log {Project} _.

Section Endpoint.

(** Request data, serializer output and errors, and the stored project
    are opaque to the handler. *)
Variables Data Errors Validated Project : Type.

(** [sentry.ingest.inbound_filters] and [audit_log.get_event_id] are
    not part of the sources; they are parameters of the handler. *)
Variable get_all_filter_specs : list (filter_spec Data Errors Validated).
Variable get_filter_state : string -> Project -> value.
Variable set_filter_state : string -> Project -> Validated -> Project * value.
Variable get_event_id : string -> Z.

(** The [for ... else] search for the filter with the requested id. *)
Definition find_filter (filter_id : string)
  : option (filter_spec Data Errors Validated) :=
  find (fun flt => String.eqb (id flt) filter_id) get_all_filter_specs.

(** The branch for [filter_id == "legacy-browsers"]; it yields
    [returned_state] and [audit_log_state]. *)
Definition legacy_browsers (current_state new_state : value)
  (returned_state : value) (audit_log_state : Z) : result exn (value * Z) :=
  if is_bool current_state || is_bool new_state then
    Ok (new_state,
        if negb (truthy new_state) then get_event_id "PROJECT_DISABLE"
        else audit_log_state)
  else
    removed <- py_sub current_state new_state ;;
    if truthy removed then
      removed <- py_sub current_state new_state ;;
      Ok (removed, get_event_id "PROJECT_DISABLE")
    else
      added <- py_sub new_state current_state ;;
      if truthy added then
        added <- py_sub new_state current_state ;;
        Ok (added, audit_log_state)
      else if py_eq new_state current_state then Ok (new_state, audit_log_state)
      else Ok (returned_state, audit_log_state).

(** The branch for the three on/off filters. *)
Definition on_off_filter (filter_id : string) (current_state new_state : value)
  (audit_log_state : Z) : result exn (value * Z) :=
  let returned_state := VStr filter_id in
  removed <- py_sub current_state new_state ;;
  if py_eq removed (VInt 1) then Ok (returned_state, get_event_id "PROJECT_DISABLE")
  else Ok (returned_state, audit_log_state).

Definition is_on_off (filter_id : string) : bool :=
  existsb (String.eqb filter_id) ["browser-extensions"; "localhost"; "web-crawlers"].

Definition put (request_data : Data) (filter_id : string) (w : world Project)
  : world Project * result exn (response Errors) :=
  match find_filter filter_id with
  | None => (w, Raise ResourceDoesNotExist)
  | Some current_filter =>
      match serializer_cls current_filter request_data with
      | Invalid errors => (w, Ok (Response (Some errors) 400))
      | Valid validated_data =>
          let current_state := get_filter_state filter_id (project w) in
          let current_state :=
            if is_list current_state then py_set current_state else current_state in
          let (project', new_state) :=
            set_filter_state filter_id (project w) validated_data in
          let w' := mkWorld project' (audit_log w) in
          let new_state := if is_list new_state then py_set new_state else new_state in
          let audit_log_state := get_event_id "PROJECT_ENABLE" in
          let returned_state := VNone in
          let computed :=
            r <- (if String.eqb filter_id "legacy-browsers"
                  then legacy_browsers current_state new_state
                         returned_state audit_log_state
                  else Ok (returned_state, audit_log_state)) ;;
            (if is_on_off filter_id
             then on_off_filter filter_id current_state new_state (snd r)
             else Ok r) in
          match computed with
          | Raise e => (w', Raise e)
          | Ok (returned_state, audit_log_state) =>
              let returned_state :=
                if is_iterable returned_state then py_list returned_state
                else returned_state in
              (mkWorld project'
                 (audit_log w ++ [mkAuditEntry audit_log_state returned_state]),
               Ok (Response None 201))
          end
      end
  end.


End Endpoint.

(** A sample installation for the examples below: the request data is
    the text of the [active] field, the project stores one state per
    filter id. *)
Definition sample_serializer (data : string) : validation string bool :=
  if String.eqb data "true" then Valid true
  else if String.eqb data "false" then Valid false
  else Invalid "Must be a valid boolean.".

Definition sample_specs : list (filter_spec string string bool) :=
  map (fun i => mkFilterSpec i sample_serializer)
      ["browser-extensions"; "localhost"; "legacy-browsers"; "web-crawlers"].

Definition sample_get_filter_state (filter_id : string) (p : gmap string bool) : value :=
  VBool (match p !! filter_id with Some b => b | None => false end).

Definition sample_set_filter_state (filter_id : string) (p : gmap string bool) (active : bool)
  : gmap string bool * value :=
  (<[filter_id := active]> p, VBool active).

Definition sample_get_event_id (name : string) : Z :=
  if String.eqb name "PROJECT_ENABLE" then 37
  else if String.eqb name "PROJECT_DISABLE" then 38
  else 0.

Definition sample_put :=
  put string string bool (gmap string bool)
    sample_specs sample_get_filter_state sample_set_filter_state sample_get_event_id.



End ProjectFilterDetails.

(** ** sentry/tasks/integrations/github/pr_comment.py *)

Module PrComment.

(** A Python [str] is a sequence of Unicode code points; [len] and
    slicing count code points. *)
Definition char : Type := N.
Definition str : Type := list char.

(** An ASCII literal as a [str]. *)
Definition lit (s : string) : str :=
  map N_of_ascii (String.list_ascii_of_string s).

Definition newline : str := [10%N].

Record PullRequestIssue : Type := mkIssue
  { title : str; subtitle : str; url : str }.

Inductive exn : Type :=
| KeyError (name : str)   (* a field that no keyword argument provides *)
| ValueError.            (* an unbalanced brace in the template *)

Definition COMMENT_BODY_TEMPLATE : str :=
  lit "## Suspect Issues" ++ newline ++
  lit "This pull request has been deployed and Sentry has observed the following issues:"
  ++ newline ++ newline ++
  lit "{issue_list}" ++ newline ++ newline ++
  lit "Have questions? Reach out to us in the #proj-github-pr-comments channel."
  ++ newline ++ newline ++
  lit "<sub>Did you find this useful? React with a " ++ [0x1F44D%N] ++ lit " or "
  ++ [0x1F44E%N] ++ lit "</sub>".

Definition SINGLE_ISSUE_TEMPLATE : str :=
  lit "- " ++ [0x203C%N; 0xFE0F%N] ++
  lit " **{title}** `{subtitle}` [View Issue]({url})".

Definition open_brace : char := 123%N.
Definition close_brace : char := 125%N.

Fixpoint lookup_kwarg (name : str) (kwargs : list (str * str)) : result exn str :=
  match kwargs with
  | [] => Raise (KeyError name)
  | (k, v) :: rest =>
      if bool_decide (k = name) then Ok v else lookup_kwarg name rest
  end.

(** [str.format] with keyword arguments, for templates whose replacement fields
    are plain names, as the two templates above are: the text outside
    the braces is copied, each [{name}] is replaced by the argument of
    that name.  [field] holds the name being read inside a brace. *)
Fixpoint format_from (template : str) (field : option str) (kwargs : list (str * str))
  : result exn str :=
  match template with
  | [] => match field with None => Ok [] | Some _ => Raise ValueError end
  | c :: rest =>
      match field with
      | None =>
          if N.eqb c open_brace then format_from rest (Some []) kwargs
          else if N.eqb c close_brace then Raise ValueError
          else r <- format_from rest None kwargs ;; Ok (c :: r)
      | Some name =>
          if N.eqb c close_brace then
            v <- lookup_kwarg name kwargs ;;
            r <- format_from rest None kwargs ;;
            Ok (v ++ r)
          else format_from rest (Some (name ++ [c])) kwargs
      end
  end.

Definition format (template : str) (kwargs : list (str * str)) : result exn str :=
  format_from template None kwargs.

(** [sep.join(items)]. *)
Fixpoint join (sep : str) (items : list str) : str :=
  match items with
  | [] => []
  | [x] => x
  | x :: rest => x ++ sep ++ join sep rest
  end.

Definition format_subtitle (subtitle : str) : str :=
  if (50 <? length subtitle)%nat then firstn 47 subtitle ++ lit "..." else subtitle.

(** The list comprehension of [format_comment]. *)
Fixpoint format_issues (issues : list PullRequestIssue) : result exn (list str) :=
  match issues with
  | [] => Ok []
  | issue :: rest =>
      line <- format SINGLE_ISSUE_TEMPLATE
                [(lit "title", title issue);
                 (lit "subtitle", format_subtitle (subtitle issue));
                 (lit "url", url issue)] ;;
      lines <- format_issues rest ;;
      Ok (line :: lines)
  end.

Definition format_comment (issues : list PullRequestIssue) : result exn str :=
  lines <- format_issues issues ;;
  let issue_list := join newline lines in
  format COMMENT_BODY_TEMPLATE [(lit "issue_list", issue_list)].

(** *** What the specification speaks of *)

(** The bullet line of one issue. *)
Definition bullet (issue : PullRequestIssue) : str :=
  lit "- " ++ [0x203C%N; 0xFE0F%N] ++ lit " **" ++ title issue ++ lit "** `" ++
  format_subtitle (subtitle issue) ++ lit "` [View Issue](" ++ url issue ++ lit ")".

(** The fixed text before and after the bullet lines. *)
Definition body_head : str :=
  lit "## Suspect Issues" ++ newline ++
  lit "This pull request has been deployed and Sentry has observed the following issues:"
  ++ newline ++ newline.

Definition body_tail : str :=
  newline ++ newline ++
  lit "Have questions? Reach out to us in the #proj-github-pr-comments channel."
  ++ newline ++ newline ++
  lit "<sub>Did you find this useful? React with a " ++ [0x1F44D%N] ++ lit " or "
  ++ [0x1F44E%N] ++ lit "</sub>".

End PrComment.

(** ** bitfield/models.py: iteration, descriptor and typed declaration *)

Module BitfieldDescriptors.
Import Bitfield.

(** [Bit(self._flags.index(flag))] for each [flag] of a list, as the
    generators of [BitFieldFlags] produce them. *)
Fixpoint bits_of (_flags : list string) (l : list string) : result exn (list Bit) :=
  match l with
  | [] => Ok []
  | flag :: rest =>
      i <- list_index flag _flags ;;
      bits <- bits_of _flags rest ;;
      Ok (Bit_new i :: bits)
  end.

Definition iterkeys (self : BitFieldFlags) : list string := _flags self.

Definition itervalues (self : BitFieldFlags) : result exn (list Bit) :=
  bits_of (_flags self) (_flags self).

Definition iteritems (self : BitFieldFlags) : result exn (list (string * Bit)) :=
  bits <- bits_of (_flags self) (_flags self) ;;
  Ok (combine (_flags self) bits).

(** [items], [keys] and [values] collect the generators into lists. *)
Definition items := iteritems.
Definition keys := iterkeys.
Definition values := itervalues.

(** [BitFieldCreator]: the descriptor installed on the model class.

    A [BitHandler] is a mutable object, and both [to_python] and
    [__get__] assign to its [_keys] in place; an attribute holds a
    reference to its handler, and several attributes may hold the same
    one.  The store lists the handlers allocated so far, a reference is
    a position in it; a reference that Python can hold always
    designates a handler of the store. *)
Inductive descriptor_exn : Type :=
| KeyError (name : string)
| FlagsError (e : exn).

(** What is assigned to an attribute: [None], an integer, a [Bit], or a
    handler, given by reference. *)
Inductive assigned : Type :=
| ANone
| AInt (z : Z)
| ABit (b : Bit)
| AHandler (r : nat).

(** The assigned value as [to_python] sees it, a reference being
    followed into the store. *)
Definition deref (heap : list BitHandler) (value : assigned) : py_value :=
  match value with
  | ANone => PNone
  | AInt z => PInt z
  | ABit b => PBit b
  | AHandler r => match heap !! r with Some h => PHandler h | None => PNone end
  end.

(** [value._keys = self.flags] on the handler behind a reference. *)
Definition set_keys (keys : list string) (r : nat) (heap : list BitHandler)
  : list BitHandler :=
  alter (fun h => BitHandler_new (_value h) keys (_labels h)) r heap.

(** [to_python] on objects: a handler is updated in place and returned
    itself, anything else yields a handler that is newly allocated. *)
Definition to_python_object (self : BitField) (value : assigned) (heap : list BitHandler)
  : list BitHandler * nat :=
  match value with
  | AHandler r => (set_keys (flags self) r heap, r)
  | _ => (heap ++ [to_python self (deref heap value)], length heap)
  end.

Inductive descriptor_value : Type :=
| ClassFlags (f : BitFieldFlags)
| InstanceValue (r : nat).

(** [obj] is the part of the instance's [__dict__] that holds bit-field
    values, [None] when the attribute is read on the class;
    [is_BitField] tells whether the field's class is [BitField] itself. *)
Definition BitFieldCreator_set (name : string) (field : BitField)
  (obj : gmap string nat) (value : assigned) (heap : list BitHandler)
  : list BitHandler * gmap string nat :=
  let (heap, r) := to_python_object field value heap in
  (heap, <[name := r]> obj).

Definition BitFieldCreator_get (name : string) (field : BitField) (is_BitField : bool)
  (obj : option (gmap string nat)) (heap : list BitHandler)
  : list BitHandler * result descriptor_exn descriptor_value :=
  match obj with
  | None =>
      match BitFieldFlags_init (flags field) with
      | Ok f => (heap, Ok (ClassFlags f))
      | Raise e => (heap, Raise (FlagsError e))
      end
  | Some dict =>
      match dict !! name with
      | None => (heap, Raise (KeyError name))
      | Some retval =>
          ((if is_BitField then set_keys (flags field) retval heap else heap),
           Ok (InstanceValue retval))
      end
  end.

(** Two fields and a handler for the examples below. *)
Definition sample_field_ab : BitField :=
  mkBitField [FName "a"; FName "b"] ["a"; "b"] ["a"; "b"] DNone.

Definition sample_field_xyz : BitField :=
  mkBitField [FName "x"; FName "y"; FName "z"] ["x"; "y"; "z"] ["x"; "y"; "z"] DNone.

Definition sample_heap : list BitHandler :=
  [BitHandler_new (Some 3) ["a"; "b"] ["a"; "b"]].

(** [TypedBitfieldMeta.__new__].  An annotation is a [bool] (given as the
    type or as the string "bool") or something else. *)
Inductive annotation : Type :=
| TyBool
| TyOther.

Inductive typed_exn : Type :=
| NoAnnotations                   (* KeyError of clsdict["__annotations__"] *)
| AssertionError (attr : string)  (* bitfields can only hold bools *)
| InitError (e : exn).            (* raised by BitField.__init__ *)

Inductive typed_class : Type :=
| PlainClass                 (* the base class TypedBitfield itself *)
| FieldOf (f : BitField).

Definition startswith_underscore (attr : string) : bool :=
  match attr with
  | String c _ => Ascii.eqb c "_"%char
  | EmptyString => false
  end.

Definition reserved (attr : string) : bool :=
  String.eqb attr "bitfield_default" || String.eqb attr "bitfield_null".

(** The loop over [clsdict["__annotations__"].items()]. *)
Fixpoint collect_flags (annotations : list (string * annotation))
  : result typed_exn (list string) :=
  match annotations with
  | [] => Ok []
  | (attr, ty) :: rest =>
      if startswith_underscore attr then collect_flags rest
      else if reserved attr then collect_flags rest
      else
        match ty with
        | TyBool => flags <- collect_flags rest ;; Ok (attr :: flags)
        | TyOther => Raise (AssertionError attr)
        end
  end.

Definition TypedBitfieldMeta_new (name : string)
  (annotations : option (list (string * annotation))) (bitfield_default : default_arg)
  : result typed_exn typed_class :=
  if String.eqb name "TypedBitfield" then Ok PlainClass
  else
    match annotations with
    | None => Raise NoAnnotations
    | Some annotations =>
        flags <- collect_flags annotations ;;
        match BitField_init (FlagsSeq (map FName flags)) bitfield_default with
        | Ok f => Ok (FieldOf f)
        | Raise e => Raise (InitError e)
        end
    end.

(** An annotation that the loop above turns into a flag. *)
Definition public (entry : string * annotation) : bool :=
  negb (startswith_underscore (fst entry)) && negb (reserved (fst entry)).

(** The keys of a dict of flags that [BitField.__init__] selects. *)
Definition valid_keys (d : gmap Z flag_item) : list Z :=
  List.filter (fun k : Z => (0 <=? k) && (k <? MAX_FLAG_COUNT)) (map fst (map_to_list d)).

End BitfieldDescriptors.

(** ** sentry/web/frontend/organization_auth_settings.py: pending links *)

Module AuthSettingsQueries.
Import Bitfield AuthSettings.

Section PendingLinks.

Variable OrganizationMember_flags : list string.

(** The query of [handle_existing_provider] that counts the members
    whose flags equal their flags with the "sso:linked" bit masked out. *)
Definition pending_links_count (organization : Z) (members : list OrganizationMember)
  : result exn nat :=
  linked <- member_flag OrganizationMember_flags "sso:linked" ;;
  Ok (length
        (List.filter
           (fun m => (organization_id m =? organization)
                     && (member_flags m =? Z.land (member_flags m) (mask (Bit_invert linked))))
           members)).

End PendingLinks.

(** The members of an organization, and whether a user is one of them. *)
Definition members_of (organization : Z) (members : list OrganizationMember)
  : list OrganizationMember :=
  List.filter (fun m => organization_id m =? organization) members.

Definition is_member_user (organization : Z) (members : list OrganizationMember) (u : User)
  : bool :=
  existsb (fun m => match user_id m with Some i => i =? uid u | None => false end)
          (members_of organization members).

End AuthSettingsQueries.

(** ** sentry/api/endpoints/project_filter_details.py: the legacy-browsers states *)

Module ProjectFilterStates.
Import ProjectFilterDetails.

(** The set of sub-filters a state stands for once the handler has
    turned lists into sets. *)
Definition subfilters (v : value) : option (gset string) :=
  match v with
  | VSet s => Some s
  | VList l => Some (list_to_set l)
  | _ => None
  end.

(** A sample installation of the legacy-browsers filter for the examples
    below: the request data is the list of sub-filters to enable, the
    project stores the enabled set. *)
Definition legacy_spec : filter_spec (list string) string (list string) :=
  mkFilterSpec "legacy-browsers" (fun data => Valid data).

Definition legacy_put :=
  put (list string) string (list string) (gset string)
    [legacy_spec]
    (fun _ p => VSet p)
    (fun _ _ v => (list_to_set v, VList v))
    sample_get_event_id.

End ProjectFilterStates.

(** ** sentry/tasks/integrations/github/pr_comment.py: the comment workflow *)

Module PrCommentWorkflow.
Import PrComment.

Record Group : Type := mkGroup
  { group_id : Z; group_title : str; culprit : str; absolute_url : str }.

Record PullRequestComment : Type := mkComment
  { external_id : Z;
    pull_request_id : Z;
    created_at : Z;
    updated_at : Z;
    group_ids : list Z }.

Record Repository : Type := mkRepository
  { repo_name : str; integration_id : Z }.

(** A row of the Snuba answer: the selected columns. *)
Record snuba_row : Type := mkRow { row_group_id : Z; event_count : Z }.

Inductive exn : Type :=
| IndexError                      (* [0] on an empty query result *)
| KeyError                        (* resp.body["id"] *)
| ApiError                        (* raised by the GitHub client *)
| FormatError (e : PrComment.exn)
| Other (tag : string).           (* anything else the client may raise *)

(** The GitHub client: both calls answer or raise; [create_comment]
    answers with the response body. *)
Record GitHubAppsClient : Type := mkClient
  { create_comment : str -> Z -> str -> result exn (gmap string Z);
    update_comment : str -> Z -> str -> result exn unit }.

(** What a run leaves behind besides the table and the cache. *)
Inductive event : Type :=
| LoggerError (name : string)
| LoggerInfo (name : string)
| MetricsIncr (name : string) (type : option string)
| Posted (repo : str) (issue_id : Z) (body : str)       (* create_comment went through *)
| Edited (repo : str) (comment_id : Z) (body : str).    (* update_comment went through *)

Record state : Type := mkState
  { cache : gset string;
    comments : list PullRequestComment;
    events : list event }.

(** [get_comment_contents]: the groups with one of the given ids, in
    table order, as comment entries. *)
Definition get_comment_contents (groups : list Group) (issue_list : list Z)
  : list PullRequestIssue :=
  map (fun issue => mkIssue (group_title issue) (culprit issue) (absolute_url issue))
      (List.filter (fun issue => existsb (Z.eqb (group_id issue)) issue_list) groups).

(** [create_or_update_comment].  [pr_comment] is the stored row, given
    with its position in the table, or [None]; [now] is the clock. *)
Definition create_or_update_comment
  (now : Z) (pr_comment : option (nat * PullRequestComment)) (client : GitHubAppsClient)
  (repo : Repository) (pr_key : Z) (comment_body : str) (pullrequest_id : Z)
  (issue_list : list Z) (st : state) : state * result exn unit :=
  match pr_comment with
  | None =>
      match create_comment client (repo_name repo) pr_key comment_body with
      | Raise e => (st, Raise e)
      | Ok body =>
          let posted := events st ++ [Posted (repo_name repo) pr_key comment_body] in
          match body !! "id" with
          | None => (mkState (cache st) (comments st) posted, Raise KeyError)
          | Some id =>
              let current_time := now in
              (mkState (cache st)
                 (comments st ++
                  [mkComment id pullrequest_id current_time current_time issue_list])
                 (posted ++ [LoggerInfo "github.pr_comment.create_or_update_comment"]),
               Ok tt)
          end
      end
  | Some (pk, row) =>
      match update_comment client (repo_name repo) (external_id row) comment_body with
      | Raise e => (st, Raise e)
      | Ok _ =>
          let saved :=
            mkComment (external_id row) (pull_request_id row) (created_at row) now
              issue_list in
          (mkState (cache st) (<[pk := saved]> (comments st))
             (events st ++
              [Edited (repo_name repo) (external_id row) comment_body;
               LoggerInfo "github.pr_comment.create_or_update_comment"]),
           Ok tt)
      end
  end.

(** The first stored comment of a pull request, with its position. *)
Fixpoint first_comment (pullrequest_id : Z) (pos : nat) (rows : list PullRequestComment)
  : option (nat * PullRequestComment) :=
  match rows with
  | [] => None
  | row :: rest =>
      if pull_request_id row =? pullrequest_id then Some (pos, row)
      else first_comment pullrequest_id (S pos) rest
  end.

Section Workflow.

(** The database, the feature switch, Snuba and the integration service
    are outside the module; a run sees them through these lookups. *)
Variables Organization Project Integration : Type.
Variable DEBOUNCE_PR_COMMENT_CACHE_KEY : Z -> string.
Variable pr_to_issue_query : Z -> list (Z * Z * Z * list Z).
Variable get_organization : Z -> option Organization.
Variable has_pr_comment_bot : Organization -> bool.
Variable get_project : Z -> option Project.
Variable get_top_5_issues_by_count : list Z -> Project -> list snuba_row.
Variable groups : list Group.
Variable get_repository : Z -> option Repository.
Variable get_integration : Z -> option Integration.
Variable get_client : Integration -> Z -> GitHubAppsClient.
Variable now : Z.

(** The three steps of a failed lookup: drop the debounce key, log the
    error, count it. *)
Definition abandon (cache_key : string) (error : string) (type : string) (st : state)
  : state :=
  mkState (cache st ∖ {[ cache_key ]}) (comments st)
    (events st ++ [LoggerError error; MetricsIncr "github_pr_comment.error" (Some type)]).

Definition github_comment_workflow (pullrequest_id project_id : Z) (st : state)
  : state * result exn unit :=
  let cache_key := DEBOUNCE_PR_COMMENT_CACHE_KEY pullrequest_id in
  match pr_to_issue_query pullrequest_id with
  | [] => (st, Raise IndexError)
  | (gh_repo_id, pr_key, org_id, issue_list) :: _ =>
      match get_organization org_id with
      | None => (abandon cache_key "github.pr_comment.org_missing" "missing_org" st, Ok tt)
      | Some organization =>
          if negb (has_pr_comment_bot organization) then
            (mkState (cache st) (comments st)
               (events st ++ [LoggerError "github.pr_comment.feature_flag_missing"]),
             Ok tt)
          else
            let pr_comment := first_comment pullrequest_id 0 (comments st) in
            match get_project project_id with
            | None =>
                (abandon cache_key "github.pr_comment.project_missing" "missing_project" st,
                 Ok tt)
            | Some project =>
                let top_5_issues := get_top_5_issues_by_count issue_list project in
                let top_5_issue_ids := map row_group_id top_5_issues in
                let issue_comment_contents := get_comment_contents groups top_5_issue_ids in
                match get_repository gh_repo_id with
                | None =>
                    (abandon cache_key "github.pr_comment.repo_missing" "missing_repo" st,
                     Ok tt)
                | Some repo =>
                    match get_integration (integration_id repo) with
                    | None =>
                        (abandon cache_key "github.pr_comment.integration_missing"
                           "missing_integration" st,
                         Ok tt)
                    | Some integration =>
                        let client := get_client integration org_id in
                        match format_comment issue_comment_contents with
                        | Raise e => (st, Raise (FormatError e))
                        | Ok comment_body =>
                            let st1 :=
                              mkState (cache st) (comments st)
                                (events st ++ [LoggerInfo "github.pr_comment.comment_body"]) in
                            let top_24_issues := firstn 24 issue_list in
                            match create_or_update_comment now pr_comment client repo pr_key
                                    comment_body pullrequest_id top_24_issues st1 with
                            | (st2, Raise ApiError) =>
                                (mkState (cache st2 ∖ {[ cache_key ]}) (comments st2)
                                   (events st2 ++
                                    [MetricsIncr "github_pr_comment.api_error" None]),
                                 Raise ApiError)
                            | outcome => outcome
                            end
                        end
                    end
                end
            end
      end
  end.

End Workflow.

(** A sample installation for the examples below: one pull request with
    two suspect issues, in an organization that has the comment bot iff
    its id is 10; the client is given. *)
Definition sample_client_ok : GitHubAppsClient :=
  mkClient (fun _ _ _ => Ok {[ "id" := 900 ]}) (fun _ _ _ => Ok tt).

Definition sample_client_failing : GitHubAppsClient :=
  mkClient (fun _ _ _ => Raise ApiError) (fun _ _ _ => Raise ApiError).

Definition sample_key (pr : Z) : string := "pr-comment".
Definition sample_query (pr : Z) : list (Z * Z * Z * list Z) := [(1, 42, 10, [101; 102])].
Definition sample_organization (org_id : Z) : option Z := Some org_id.
Definition sample_bot (organization : Z) : bool := organization =? 10.
Definition sample_project (project_id : Z) : option unit := Some tt.
Definition sample_top_5 (issue_list : list Z) (project : unit) : list snuba_row :=
  map (fun g => mkRow g 1) (firstn 5 issue_list).
Definition sample_groups : list Group := [mkGroup 101 (lit "E1") (lit "c1") (lit "u1")].
Definition sample_repository (id : Z) : option Repository :=
  Some (mkRepository (lit "repo") 3).
Definition sample_integration (id : Z) : option unit := Some tt.

Definition sample_workflow (client : GitHubAppsClient) :=
  github_comment_workflow Z unit unit sample_key sample_query sample_organization
    sample_bot sample_project sample_top_5 sample_groups sample_repository
    sample_integration (fun _ _ => client) 1000.

Definition sample_state : state := mkState {[ "pr-comment" ]} [] [].

End PrCommentWorkflow.

(** ** sentry/integrations/gitlab/integration.py: form cleaning and commit context *)

Module GitlabCommitContext.
Import Gitlab.

(** [InstallationForm.clean_url]: the cleaned url without its trailing
    slashes. *)
Definition clean_url (cleaned_data : gmap string pyval) : result Gitlab.exn string :=
  url <- getitem cleaned_data "url" ;;
  match url with
  | VStr s => Ok (rstrip_slash s)
  | _ => Raise Gitlab.AttributeError
  end.

(** A string of [n] slashes. *)
Fixpoint slashes (n : nat) : string :=
  match n with
  | O => EmptyString
  | S n' => String "/"%char (slashes n')
  end.

(** Whether a string ends with a slash. *)
Fixpoint ends_with_slash (s : string) : bool :=
  match s with
  | EmptyString => false
  | String c EmptyString => Ascii.eqb c "/"%char
  | String _ rest => ends_with_slash rest
  end.

Inductive exn : Type :=
| ValueError       (* strptime on a malformed date; max() of an empty sequence *)
| TypeError        (* strptime on something that is not a string *)
| AttributeError   (* .get on something that is not a dict *)
| ApiError
| Other (tag : string).

Definition get (v : pyval) (k : string) (dflt : pyval) : result exn pyval :=
  match v with
  | VDict d => Ok (match d !! k with Some x => x | None => dflt end)
  | _ => Raise AttributeError
  end.

Section CommitContext.

(** [datetime.strptime(s, "%Y-%m-%dT%H:%M:%S.%f%z")] as the instant it
    denotes, in microseconds; what
    [.astimezone(utc).strftime("%Y-%m-%dT%H:%M:%S.%f")[:-3]] prints for an
    instant; and the blame lookup of the integration. *)
Variable Repository : Type.
Variable strptime : pyval -> result exn Z.
Variable strftime_utc_millis : Z -> string.
Variable get_blame_for_file :
  Repository -> string -> string -> pyval -> result exn (option (list pyval)).

(** The key of the [max] call: the commit date of a blame. *)
Definition committed_at (blame : pyval) : result exn Z :=
  commit <- get blame "commit" (VDict ∅) ;;
  date <- get commit "committed_date" VNone ;;
  strptime date.

(** [max(items, key=committed_at)] after its first item: the running
    maximum is replaced only by a strictly larger key. *)
Fixpoint max_from (best : pyval) (best_key : Z) (items : list pyval)
  : result exn pyval :=
  match items with
  | [] => Ok best
  | item :: rest =>
      k <- committed_at item ;;
      if best_key <? k then max_from item k rest else max_from best best_key rest
  end.

Definition max_by_date (items : list pyval) : result exn pyval :=
  match items with
  | [] => Raise ValueError
  | item :: rest => k <- committed_at item ;; max_from item k rest
  end.

Definition get_commit_context (repo : Repository) (filepath ref : string)
  (event_frame : gmap string pyval)
  : result exn (option (gmap string pyval)) :=
  let lineno := match event_frame !! "lineno" with Some v => v | None => VInt 0 end in
  if negb (truthy lineno) then Ok None
  else
    blame_range <- get_blame_for_file repo filepath ref lineno ;;
    match blame_range with
    | None => Ok None
    | Some blame_range =>
        match max_by_date blame_range with
        | Raise ValueError => Ok None
        | Raise e => Raise e
        | Ok commit =>
            commitInfo <- get commit "commit" VNone ;;
            if negb (truthy commitInfo) then Ok None
            else
              date <- get commitInfo "committed_date" VNone ;;
              parsed <- strptime date ;;
              let committed_date := strftime_utc_millis parsed +:+ "Z" in
              id <- get commitInfo "id" VNone ;;
              message <- get commitInfo "message" VNone ;;
              name <- get commitInfo "committer_name" VNone ;;
              email <- get commitInfo "committer_email" VNone ;;
              Ok (Some {[ "commitId" := id;
                          "committedDate" := VStr committed_date;
                          "commitMessage" := message;
                          "commitAuthorName" := name;
                          "commitAuthorEmail" := email ]})
        end
    end.

End CommitContext.

(** A sample blame answer for the examples below; in it a commit date is
    given as the instant it denotes. *)
Definition sample_strptime (date : pyval) : result exn Z :=
  match date with
  | VInt t => Ok t
  | VStr _ => Raise ValueError
  | _ => Raise TypeError
  end.

Definition sample_blame (id : string) (date : Z) : pyval :=
  VDict {[ "commit" := VDict {[ "id" := VStr id; "committed_date" := VInt date ]} ]}.

Definition sample_commit_context :=
  get_commit_context unit sample_strptime (fun _ => "date")
    (fun _ _ _ _ => Ok (Some [sample_blame "old" 5; sample_blame "new" 9]))
    tt "app.py" "main" {[ "lineno" := VInt 12 ]}.

End GitlabCommitContext.

(** ** sentry/integrations/slack/views/unlink_identity.py *)

Module SlackUnlinkIdentity.

Record Identity : Type := mkIdentity
  { idp_id : Z; external_id : string; user_id : Z }.

Record Integration : Type := mkIntegration
  { integration_external_id : string; provider_name : string }.

Inductive exn : Type :=
| Http404
| KeyError (key : string).

(** A rendered template with the context entries the view passes. *)
Inductive response : Type :=
| Render (template : string) (context : list (string * string)).

Inductive event : Type :=
| LoggerException (name : string)
| SlackResponse (integration : Integration) (text : string) (command : string).

Record state : Type := mkState
  { identities : list Identity; events : list event }.

Definition SUCCESS_UNLINKED_MESSAGE : string :=
  "Your Slack identity has been unlinked from your Sentry account.".

Definition param (params : gmap string string) (key : string) : result exn string :=
  match params !! key with
  | Some v => Ok v
  | None => Raise (KeyError key)
  end.

Section View.

(** Signature checking, the lookup of the user's identity provider and
    the database's verdict on the delete are outside the module.
    [unsign] gives the signed parameters, each as its text, or [None]
    for an expired or bad signature; [get_identity_or_404] gives the
    organization's name, the integration and the id of the identity
    provider; [delete_is_refused] tells whether the database answers the
    delete with an IntegrityError. *)
Variable unsign : string -> option (gmap string string).
Variable get_identity_or_404 : Z -> string -> result exn (string * Integration * Z).
Variable delete_is_refused : bool.

Definition handle (user : Z) (method : string) (signed_params : string) (st : state)
  : state * result exn response :=
  match unsign signed_params with
  | None => (st, Ok (Render "sentry/integrations/slack/expired-link.html" []))
  | Some params =>
      match param params "integration_id" with
      | Raise e => (st, Raise e)
      | Ok integration_id =>
          match get_identity_or_404 user integration_id with
          | Raise e => (st, Raise e)
          | Ok (organization, integration, idp) =>
              if negb (String.eqb method "POST") then
                (st, Ok (Render "sentry/auth-unlink-identity.html"
                           [("organization", organization);
                            ("provider", provider_name integration)]))
              else
                match param params "slack_id" with
                | Raise e => (st, Raise e)
                | Ok slack_id =>
                    if delete_is_refused then
                      (mkState (identities st)
                         (events st ++ [LoggerException "slack.unlink.integrity-error"]),
                       Raise Http404)
                    else
                      let kept :=
                        List.filter
                          (fun row =>
                             negb ((idp_id row =? idp) && String.eqb (external_id row) slack_id))
                          (identities st) in
                      let st' :=
                        mkState kept
                          (events st ++
                           [SlackResponse integration SUCCESS_UNLINKED_MESSAGE "unlink"]) in
                      match param params "channel_id" with
                      | Raise e => (st', Raise e)
                      | Ok channel_id =>
                          (st', Ok (Render "sentry/integrations/slack/unlinked.html"
                                      [("channel_id", channel_id);
                                       ("team_id", integration_external_id integration)]))
                      end
                end
          end
      end
  end.

End View.

(** A sample installation for the examples below. *)
Definition sample_unsign (signed_params : string) : option (gmap string string) :=
  if String.eqb signed_params "signed"
  then Some {[ "integration_id" := "3"; "slack_id" := "U1"; "channel_id" := "C1" ]}
  else None.

Definition sample_identity (user : Z) (integration_id : string)
  : result exn (string * Integration * Z) :=
  Ok ("acme", mkIntegration "T1" "slack", 5).

Definition sample_state : state :=
  mkState [mkIdentity 5 "U1" 1; mkIdentity 5 "U2" 2; mkIdentity 6 "U1" 3] [].

Definition sample_handle := handle sample_unsign sample_identity false.

End SlackUnlinkIdentity.

(** * Properties *)

Module BitfieldFacts.
Import Bitfield.

Lemma MAX_FLAG_COUNT_eq : MAX_FLAG_COUNT = 63.
Proof. reflexivity. Qed.

Lemma too_many_iff {A} (l : list A) :
  (Z.of_nat (length l) >? MAX_FLAG_COUNT) = true <-> (63 < length l)%nat.
Proof. rewrite MAX_FLAG_COUNT_eq. rewrite Z.gtb_ltb, Z.ltb_lt. lia. Qed.

Lemma split_labels_raise l e : split_labels l = Raise e -> e = IndexError.
Proof.
  induction l as [|[s|t] l IH]; simpl; intros H.
  - discriminate.
  - destruct (split_labels l); simpl in H; [discriminate|]. apply IH. congruence.
  - destruct t as [|name [|label t]]; try congruence.
    destruct (split_labels l); simpl in H; [discriminate|]. apply IH. congruence.
Qed.

Lemma split_labels_length l names labels :
  split_labels l = Ok (names, labels) ->
  length names = length l /\ length labels = length l.
Proof.
  revert names labels.
  induction l as [|[s|t] l IH]; simpl; intros names labels H.
  - inversion H. auto.
  - destruct (split_labels l) as [[ns ls]|]; simpl in H; [|discriminate].
    inversion H; subst. destruct (IH _ _ eq_refl). simpl. lia.
  - destruct t as [|name [|label t]]; try discriminate.
    destruct (split_labels l) as [[ns ls]|]; simpl in H; [|discriminate].
    inversion H; subst. destruct (IH _ _ eq_refl). simpl. lia.
Qed.

Lemma pack_from_raise v fl D e : pack_from v fl D = Raise e -> exists x, e = NotInList x.
Proof.
  revert v. induction D as [|d D IH]; simpl; intros v H; [discriminate|].
  unfold list_index in H. destruct (index d fl); simpl in H.
  - eapply IH; eauto.
  - inversion H. eauto.
Qed.

Lemma index_In x l : In x l -> exists i, index x l = Some i.
Proof.
  induction l as [|y l IH]; simpl; [tauto|]. intros H.
  destruct (String.eqb_spec y x); [eauto|].
  destruct H as [->|H]; [congruence|]. destruct (IH H) as [i ->]. simpl. eauto.
Qed.

Lemma index_lookup x l i :
  index x l = Some i ->
  nth_error l i = Some x /\ (i < length l)%nat /\
  forall j, (j < i)%nat -> nth_error l j <> Some x.
Proof.
  revert i. induction l as [|y l IH]; simpl; intros i H; [discriminate|].
  destruct (String.eqb_spec y x).
  - inversion H; subst. simpl. repeat split; [lia | intros; lia].
  - destruct (index x l) as [i'|]; simpl in H; [|discriminate]. inversion H; subst.
    destruct (IH _ eq_refl) as (Hn & Hl & Hj). simpl. repeat split; auto; [lia|].
    intros [|j] Hlt; simpl; [congruence|]. apply Hj. lia.
Qed.

Lemma index_NoDup x l i :
  NoDup l -> nth_error l i = Some x -> index x l = Some i.
Proof.
  intros Hnd. revert i. induction Hnd as [|y l Hy Hnd IH]; intros [|i]; simpl; try discriminate.
  - intros [= ->]. now rewrite String.eqb_refl.
  - intros Hi. destruct (String.eqb_spec y x) as [->|_].
    + exfalso. apply Hy. apply list_elem_of_In. eapply nth_error_In; eauto.
    + now rewrite (IH _ Hi).
Qed.

Lemma or_of_bits_testbit indices (i : nat) :
  Z.testbit (or_of_bits indices) (Z.of_nat i) = true <-> In i indices.
Proof.
  induction indices as [|j js IH]; simpl.
  - rewrite Z.bits_0. split; [discriminate | tauto].
  - rewrite Z.lor_spec, orb_true_iff, IH, Z.pow2_bits_eqb, Z.eqb_eq by lia.
    split; intros [H|H]; auto; left; lia.
Qed.

Lemma or_of_bits_bound indices k :
  (forall i, In i indices -> (i < k)%nat) -> 0 <= or_of_bits indices < 2 ^ Z.of_nat k.
Proof.
  intros H.
  assert (Hb : forall n, Z.of_nat k <= n -> Z.testbit (or_of_bits indices) n = false).
  { intros n Hn. induction indices as [|j js IH]; simpl; [apply Z.bits_0|].
    rewrite Z.lor_spec, Z.pow2_bits_eqb by lia.
    rewrite IH by (intros; apply H; simpl; auto).
    assert ((j < k)%nat) by (apply H; simpl; auto).
    destruct (Z.eqb_spec (Z.of_nat j) n); [lia | reflexivity]. }
  assert (Hnn : 0 <= or_of_bits indices).
  { clear. induction indices; simpl; [lia|]. apply Z.lor_nonneg. split; [|assumption].
    apply Z.pow_nonneg. lia. }
  split; [assumption|].
  destruct (Z.eq_dec (or_of_bits indices) 0) as [->|Hne].
  - apply Z.pow_pos_nonneg; lia.
  - apply Z.log2_lt_pow2; [lia|].
    destruct (Z.lt_ge_cases (Z.log2 (or_of_bits indices)) (Z.of_nat k)) as [|Hge]; [assumption|].
    apply Hb in Hge. rewrite Z.bit_log2 in Hge by lia. discriminate.
Qed.

Lemma pack_from_spec fl D : forall v,
  (forall d, In d D -> In d fl) ->
  exists indices,
    Forall2 (fun d i => index d fl = Some i) D indices /\
    pack_from v fl D = Ok (Z.lor v (or_of_bits indices)).
Proof.
  induction D as [|d D IH]; intros v Hin.
  - exists []. split; [constructor|]. simpl. now rewrite Z.lor_0_r.
  - destruct (index_In d fl) as [i Hi]; [apply Hin; simpl; auto|].
    destruct (IH (int_or_Bit v (Bit_new i))) as (js & HF & Hp);
      [intros; apply Hin; simpl; auto|].
    exists (i :: js). split; [constructor; assumption|].
    simpl. unfold list_index. rewrite Hi. simpl. rewrite Hp.
    unfold int_or_Bit, mask, Bit_new. simpl. now rewrite Z.lor_assoc.
Qed.

(** C1: a flags sequence of more than [MAX_FLAG_COUNT] = 63 entries makes
    both [BitField.__init__] and [BitFieldFlags.__init__] raise
    ValueError("Too many flags"), and with at most 63 entries neither
    raises it. *)
Theorem too_many_flags_raised_iff
  (l : list flag_item) (names : list string) (d : default_arg) :
  MAX_FLAG_COUNT = 63 /\
  (BitField_init (FlagsSeq l) d = Raise TooManyFlags <-> (63 < length l)%nat) /\
  (BitFieldFlags_init names = Raise TooManyFlags <-> (63 < length names)%nat) /\
  (BitFieldFlags_init names = Ok (mkBitFieldFlags names) <-> (length names <= 63)%nat).
Proof.
  pose proof (too_many_iff l) as Hl. pose proof (too_many_iff names) as Hn.
  split; [reflexivity|]. split; [|split].
  - unfold BitField_init. simpl.
    destruct (Z.of_nat (length l) >? MAX_FLAG_COUNT).
    + split; [intros _; now apply Hl | reflexivity].
    + split; [intros H; exfalso | intros H; apply Hl in H; discriminate].
      destruct (split_labels l) as [[ns ls]|e] eqn:Es; simpl in H;
        [| apply split_labels_raise in Es; congruence].
      destruct d as [| |D]; simpl in H; try discriminate.
      destruct (pack_from 0 ns D) eqn:Ep; simpl in H; [discriminate|].
      apply pack_from_raise in Ep. destruct Ep. congruence.
  - unfold BitFieldFlags_init.
    destruct (Z.of_nat (length names) >? MAX_FLAG_COUNT).
    + split; [intros _; now apply Hn | reflexivity].
    + split; [discriminate | intros H; apply Hn in H; discriminate].
  - unfold BitFieldFlags_init.
    destruct (Z.of_nat (length names) >? MAX_FLAG_COUNT).
    + split; [discriminate|]. intros H. assert (63 < length names)%nat by now apply Hn. lia.
    + split; [|reflexivity]. intros _.
      destruct (le_lt_dec (length names) 63) as [|H]; [assumption|].
      apply Hn in H. discriminate.
Qed.

(** C2: with at most 63 well-formed flags [F] and a default collection [D]
    whose members all occur among the flag names, construction succeeds
    and the default handed on is the integer whose set bits are exactly
    the positions [flags.index(d)] of the members [d] of [D]: the
    bitwise OR of [2^i] over those positions.  When the flag names are
    distinct, these are the positions of [F] that hold a member of [D]. *)
Theorem default_collection_packed
  (F : list flag_item) (D names labels : list string) :
  (length F <= 63)%nat ->
  split_labels F = Ok (names, labels) ->
  (forall d, In d D -> In d names) ->
  exists v indices,
    BitField_init (FlagsSeq F) (DColl D) = Ok (mkBitField F names labels (DInt v)) /\
    Forall2 (fun d i => index d names = Some i) D indices /\
    v = or_of_bits indices /\
    (forall i : nat, Z.testbit v (Z.of_nat i) = true <->
                     exists d, In d D /\ index d names = Some i) /\
    (NoDup names ->
     forall i : nat, Z.testbit v (Z.of_nat i) = true <->
                     exists d, In d D /\ nth_error names i = Some d) /\
    0 <= v < 2 ^ Z.of_nat (length names).
Proof.
  intros Hlen Hsplit Hin.
  destruct (pack_from_spec names D 0 Hin) as (indices & HF & Hp).
  rewrite Z.lor_0_l in Hp.
  assert (Hidx : forall i, In i indices <-> exists d, In d D /\ index d names = Some i).
  { clear Hp Hin. induction HF as [|d j D js Hd HF IH]; intros i; simpl.
    - split; [tauto | intros (d & [] & _)].
    - rewrite IH. split.
      + intros [<-|(d' & Hd' & Hi')]; [exists d | exists d']; auto.
      + intros (d' & [<-|Hd'] & Hi'); [left; congruence | right; eauto]. }
  exists (or_of_bits indices), indices.
  split; [|split; [assumption|split; [reflexivity|split; [|split]]]].
  - unfold BitField_init. simpl.
    destruct (Z.of_nat (length F) >? MAX_FLAG_COUNT) eqn:E.
    + apply too_many_iff in E. lia.
    + rewrite Hsplit. simpl. rewrite Hp. reflexivity.
  - intros i. rewrite or_of_bits_testbit. apply Hidx.
  - intros Hnd i. rewrite or_of_bits_testbit, Hidx. split.
    + intros (d & Hd & Hi). exists d. split; [assumption|]. now apply index_lookup in Hi.
    + intros (d & Hd & Hi). exists d. split; [assumption|]. now apply index_NoDup.
  - apply or_of_bits_bound. intros i Hi.
    apply Hidx in Hi. destruct Hi as (d & _ & Hi). now apply index_lookup in Hi.
Qed.

Lemma default_collection_packed_witness :
  exists v indices,
    BitField_init (FlagsSeq [FName "a"; FTuple ["b"; "B"]; FName "c"]) (DColl ["c"; "a"])
      = Ok (mkBitField [FName "a"; FTuple ["b"; "B"]; FName "c"]
              ["a"; "b"; "c"] ["a"; "B"; "c"] (DInt v)) /\
    Forall2 (fun d i => index d ["a"; "b"; "c"] = Some i) ["c"; "a"] indices /\
    v = or_of_bits indices /\
    (forall i : nat, Z.testbit v (Z.of_nat i) = true <->
                     exists d, In d ["c"; "a"] /\ index d ["a"; "b"; "c"] = Some i) /\
    (NoDup ["a"; "b"; "c"] ->
     forall i : nat, Z.testbit v (Z.of_nat i) = true <->
                     exists d, In d ["c"; "a"] /\ nth_error ["a"; "b"; "c"] i = Some d) /\
    0 <= v < 2 ^ Z.of_nat (length ["a"; "b"; "c"]).
Proof.
  apply (default_collection_packed [FName "a"; FTuple ["b"; "B"]; FName "c"] ["c"; "a"]).
  - simpl. lia.
  - reflexivity.
  - simpl. intuition.
Defined.

Lemma visible_from_testbit fl : forall acc n s i,
  0 <= i ->
  Z.testbit (visible_from acc n s fl) i =
  Z.testbit acc i
  || (Z.testbit n i && (Z.of_nat s <=? i) && (i <? Z.of_nat (s + length fl))).
Proof.
  induction fl as [|f fl IH]; intros acc n s i Hi; cbn [visible_from length].
  - destruct (Z.leb_spec (Z.of_nat s) i), (Z.ltb_spec i (Z.of_nat (s + 0)));
      rewrite ?andb_false_r, ?orb_false_r; try reflexivity; lia.
  - rewrite IH by assumption.
    rewrite Z.lor_spec, Z.land_spec, Z.pow2_bits_eqb by lia.
    destruct (Z.eqb_spec (Z.of_nat s) i), (Z.leb_spec (Z.of_nat (S s)) i),
      (Z.leb_spec (Z.of_nat s) i), (Z.ltb_spec i (Z.of_nat (S s + length fl))),
      (Z.ltb_spec i (Z.of_nat (s + S (length fl))));
      try lia; destruct (Z.testbit acc i), (Z.testbit n i); reflexivity.
Qed.

Lemma visible_from_land n fl :
  visible_from 0 n 0 fl = Z.land n (2 ^ Z.of_nat (length fl) - 1).
Proof.
  apply Z.bits_inj'. intros i Hi.
  rewrite visible_from_testbit, Z.bits_0, Z.land_spec by assumption. simpl.
  change (2 ^ Z.of_nat (length fl) - 1) with (Z.pred (2 ^ Z.of_nat (length fl))).
  rewrite <- Z.ones_equiv, Z.testbit_ones by lia.
  change (Z.of_nat 0) with 0.
  replace (0 <=? i) with true by (symmetry; apply Z.leb_le; assumption).
  replace (i <? Z.of_nat (0 + length fl)) with (i <? Z.of_nat (length fl)) by reflexivity.
  destruct (Z.testbit n i), (i <? Z.of_nat (length fl)); reflexivity.
Qed.

Lemma or_of_visible_land n k : or_of_visible n k = Z.land n (2 ^ Z.of_nat k - 1).
Proof.
  unfold or_of_visible.
  change (2 ^ Z.of_nat k - 1) with (Z.pred (2 ^ Z.of_nat k)). rewrite <- Z.ones_equiv.
  induction k as [|k IH].
  - simpl. now rewrite Z.land_0_r.
  - rewrite seq_S, map_app, fold_right_app. simpl.
    rewrite Z.lor_0_r.
    assert (Hgen : forall l a, fold_right Z.lor a l = Z.lor (fold_right Z.lor 0 l) a).
    { induction l as [|x l IHl]; intros a; simpl; [reflexivity|].
      now rewrite IHl, Z.lor_assoc. }
    rewrite Hgen, IH. apply Z.bits_inj'. intros i Hi.
    rewrite Z.lor_spec, !Z.land_spec, Z.pow2_bits_eqb, !Z.testbit_ones by lia.
    destruct (Z.testbit n i); simpl; [|reflexivity].
    destruct (Z.leb_spec 0 i), (Z.ltb_spec i (Z.of_nat k)),
      (Z.ltb_spec i (Z.of_nat (S k))), (Z.eqb_spec (Z.of_nat k) i);
      simpl; try reflexivity; lia.
Qed.

(** C8: on a negative integer [n], [to_python] wraps the non-negative
    integer [n & (2^k - 1)], the bitwise OR of [n & 2^b] for [b] in
    [0 .. k-1] where [k] is the number of flags; a non-negative integer
    is wrapped unchanged. *)
Theorem to_python_int_visible_bits (self : BitField) (n : Z) :
  let k := length (flags self) in
  to_python self (PInt n) =
    BitHandler_new (Some (if n <? 0 then Z.land n (2 ^ Z.of_nat k - 1) else n))
      (flags self) (labels self) /\
  Z.land n (2 ^ Z.of_nat k - 1) = or_of_visible n k /\
  0 <= Z.land n (2 ^ Z.of_nat k - 1) < 2 ^ Z.of_nat k.
Proof.
  intros k. split; [|split].
  - unfold to_python. destruct (n <? 0); [|reflexivity].
    now rewrite visible_from_land.
  - symmetry. apply or_of_visible_land.
  - change (2 ^ Z.of_nat k - 1) with (Z.pred (2 ^ Z.of_nat k)).
    rewrite <- Z.ones_equiv, Z.land_ones by lia.
    apply Z.mod_pos_bound. apply Z.pow_pos_nonneg; lia.
Qed.

End BitfieldFacts.

Module GitlabFacts.
Import Gitlab.

(** Take apart a successful chain of binds, one step at a time. *)
Ltac unbind H :=
  repeat match type of H with
         | bind ?r _ = Ok _ =>
             let E := fresh "E" in
             destruct r eqn:E; cbn [bind] in H; [|discriminate H]
         end.

(** C7: the result is [data["message"]] when that key is present,
    otherwise [data["error"]] when that one is, otherwise [None]. *)
Theorem error_message_from_json_lookup (data : gmap string pyval) :
  error_message_from_json data =
  Ok match data !! "message" with
     | Some m => m
     | None => match data !! "error" with
               | Some e => e
               | None => VNone
               end
     end.
Proof.
  unfold error_message_from_json, has_key, getitem.
  destruct (data !! "message"); [reflexivity|].
  destruct (data !! "error"); reflexivity.
Qed.

Section BuildIntegration.

Variable sha1_hexdigest : string -> string.
Variable urlparse_netloc : string -> string.
Variable py_repr : pyval -> string.
Variable oauth_scopes : list string.

Local Abbreviation build :=
  (build_integration sha1_hexdigest urlparse_netloc py_repr oauth_scopes).

Lemma build_integration_secret (e : env) (st i : gmap string pyval) :
  build e st = Ok i ->
  exists h c,
    hostname_of urlparse_netloc st = Some h /\
    client_id_of st = Some c /\
    webhook_secret_of i = Some (VStr (sha1_hexdigest (h +:+ c))).
Proof.
  unfold build, build_integration. intros H. unbind H.
  match goal with
  | E : getitem st "installation_data" = Ok ?v |- _ =>
      unfold getitem in E;
      destruct (st !! "installation_data") as [inst|] eqn:Ei; [|discriminate E];
      injection E as <-
  end.
  match goal with
  | E : subscript inst "url" = Ok _ |- _ =>
      destruct inst as [| | | | |inst]; try discriminate E
  end.
  cbn [subscript] in *. unfold getitem in *.
  destruct (inst !! "url") as [url|] eqn:Eu; [|discriminate].
  destruct (inst !! "client_id") as [cid|] eqn:Ec; [|discriminate].
  repeat match goal with
         | E : Ok _ = Ok _ |- _ => injection E as <-
         end.
  destruct url as [| | |u| |]; try discriminate.
  destruct cid as [| | |c| |]; try discriminate.
  cbn [join2] in *.
  repeat match goal with
         | E : Ok _ = Ok _ |- _ => injection E as <-
         end.
  exists (urlparse_netloc u), c. unfold hostname_of, client_id_of.
  rewrite Ei, Eu, Ec. repeat split.
Qed.

(** C10: the webhook secret in the integration metadata is the SHA-1
    hex digest of the GitLab hostname followed by the installation's
    client_id, so two runs that agree on both, whatever GitLab answers
    them, carry the same secret. *)
Theorem webhook_secret_deterministic
  (e1 e2 : env) (st1 st2 i1 i2 : gmap string pyval) :
  build e1 st1 = Ok i1 ->
  build e2 st2 = Ok i2 ->
  hostname_of urlparse_netloc st1 = hostname_of urlparse_netloc st2 ->
  client_id_of st1 = client_id_of st2 ->
  (exists h c,
      hostname_of urlparse_netloc st1 = Some h /\
      client_id_of st1 = Some c /\
      webhook_secret_of i1 = Some (VStr (sha1_hexdigest (h +:+ c)))) /\
  webhook_secret_of i1 = webhook_secret_of i2.
Proof.
  intros H1 H2 Hh Hc.
  destruct (build_integration_secret _ _ _ H1) as (h1 & c1 & Hh1 & Hc1 & Hs1).
  destruct (build_integration_secret _ _ _ H2) as (h2 & c2 & Hh2 & Hc2 & Hs2).
  split; [eauto|].
  rewrite Hs1, Hs2. congruence.
Qed.

End BuildIntegration.

Lemma webhook_secret_deterministic_witness :
  exists i1 i2,
    sample_build 7 = Ok i1 /\
    sample_build 8 = Ok i2 /\
    (exists h c,
        hostname_of sample_netloc sample_state = Some h /\
        client_id_of sample_state = Some c /\
        webhook_secret_of i1 = Some (VStr (sample_digest (h +:+ c)))) /\
    webhook_secret_of i1 = webhook_secret_of i2.
Proof.
  destruct (sample_build 7) as [i1|] eqn:E1; [|vm_compute in E1; discriminate E1].
  destruct (sample_build 8) as [i2|] eqn:E2; [|vm_compute in E2; discriminate E2].
  exists i1, i2. split; [reflexivity|]. split; [reflexivity|].
  apply (webhook_secret_deterministic sample_digest sample_netloc sample_repr ["api"]
           (sample_env 7) (sample_env 8) sample_state sample_state i1 i2 E1 E2);
    reflexivity.
Defined.

Example sample_build_secret :
  (i <- sample_build 7 ;; Ok (webhook_secret_of i)) =
  Ok (Some (VStr "sha1(gitlab.example.comclient)")).
Proof. vm_compute. reflexivity. Qed.

End GitlabFacts.

Module AuthSettingsFacts.
Import Bitfield AuthSettings.

Section DisableProvider.

Variable flags : list string.

Lemma member_flag_index key i :
  (length flags <= 63)%nat ->
  index key flags = Some i ->
  member_flag flags key = Ok (Bit_new i).
Proof.
  intros Hlen Hi. unfold member_flag, BitFieldFlags_init.
  destruct (Z.of_nat (length flags) >? MAX_FLAG_COUNT) eqn:E.
  - apply BitfieldFacts.too_many_iff in E. lia.
  - cbn [bind]. unfold BitFieldFlags_getitem, BitFieldFlags_getattr, contains, list_index.
    cbn [_flags]. rewrite Hi. reflexivity.
Qed.

Lemma bitand2_testbit v i j b :
  0 <= b ->
  Z.testbit (bitand2 v (Bit_invert (Bit_new i)) (Bit_invert (Bit_new j))) b =
  Z.testbit v b && negb (b =? Z.of_nat i) && negb (b =? Z.of_nat j).
Proof.
  intros Hb. unfold bitand2, mask, Bit_invert, Bit_new. cbn [is_set number negb].
  rewrite !Z.land_spec, !Z.lnot_spec, !Z.pow2_bits_eqb by lia.
  now rewrite (Z.eqb_sym (Z.of_nat i)), (Z.eqb_sym (Z.of_nat j)).
Qed.

(** C9: "sso:linked" and "sso:invalid" being flags of the member model,
    at their first positions [linked] and [invalid] in the flag list,
    every member row of the organization gets its flags and-ed with the
    complements of the masks [2^linked] and [2^invalid]: these two bits
    are cleared and every other bit keeps its value; the rows of other
    organizations keep their flags. *)
Theorem disable_provider_clears_sso_bits
  (request_user organization : Z) (auth_provider : AuthProvider) (s : db) :
  (length flags <= 63)%nat ->
  In "sso:linked" flags ->
  In "sso:invalid" flags ->
  exists s' linked invalid,
    nth_error flags linked = Some "sso:linked" /\
    (forall k, (k < linked)%nat -> nth_error flags k <> Some "sso:linked") /\
    nth_error flags invalid = Some "sso:invalid" /\
    (forall k, (k < invalid)%nat -> nth_error flags k <> Some "sso:invalid") /\
    _disable_provider flags request_user organization auth_provider s = Ok s' /\
    Forall2
      (fun m m' =>
         member_id m' = member_id m /\
         organization_id m' = organization_id m /\
         user_id m' = user_id m /\
         if organization_id m =? organization
         then member_flags m' =
                Z.land (Z.land (member_flags m) (Z.lnot (2 ^ Z.of_nat linked)))
                       (Z.lnot (2 ^ Z.of_nat invalid)) /\
              forall b, 0 <= b ->
                Z.testbit (member_flags m') b =
                Z.testbit (member_flags m) b
                && negb (b =? Z.of_nat linked) && negb (b =? Z.of_nat invalid)
         else member_flags m' = member_flags m)
      (members s) (members s').
Proof.
  intros Hlen Hl Hi.
  destruct (BitfieldFacts.index_In _ _ Hl) as [il Hil].
  destruct (BitfieldFacts.index_In _ _ Hi) as [ii Hii].
  destruct (BitfieldFacts.index_lookup _ _ _ Hil) as (Hnl & _ & Hfl).
  destruct (BitfieldFacts.index_lookup _ _ _ Hii) as (Hni & _ & Hfi).
  eexists _, il, ii. do 4 (split; [assumption|]).
  unfold _disable_provider.
  rewrite (member_flag_index _ _ Hlen Hil), (member_flag_index _ _ Hlen Hii).
  cbn [bind]. split; [reflexivity|]. cbn [members].
  induction (members s) as [|m ms IH]; simpl; constructor; [|exact IH].
  destruct (organization_id m =? organization) eqn:E; simpl.
  - repeat split. intros b Hb. now apply bitand2_testbit.
  - repeat split.
Qed.

End DisableProvider.

Lemma disable_provider_clears_sso_bits_witness :
  exists s' linked invalid,
    nth_error sample_flags linked = Some "sso:linked" /\
    (forall k, (k < linked)%nat -> nth_error sample_flags k <> Some "sso:linked") /\
    nth_error sample_flags invalid = Some "sso:invalid" /\
    (forall k, (k < invalid)%nat -> nth_error sample_flags k <> Some "sso:invalid") /\
    _disable_provider sample_flags 100 10 (mkAuthProvider 5 "okta" false) sample_db = Ok s' /\
    Forall2
      (fun m m' =>
         member_id m' = member_id m /\
         organization_id m' = organization_id m /\
         user_id m' = user_id m /\
         if organization_id m =? 10
         then member_flags m' =
                Z.land (Z.land (member_flags m) (Z.lnot (2 ^ Z.of_nat linked)))
                       (Z.lnot (2 ^ Z.of_nat invalid)) /\
              forall b, 0 <= b ->
                Z.testbit (member_flags m') b =
                Z.testbit (member_flags m) b
                && negb (b =? Z.of_nat linked) && negb (b =? Z.of_nat invalid)
         else member_flags m' = member_flags m)
      (members sample_db) (members s').
Proof.
  apply (disable_provider_clears_sso_bits sample_flags 100 10
           (mkAuthProvider 5 "okta" false) sample_db).
  - simpl. lia.
  - simpl. tauto.
  - simpl. tauto.
Defined.

Example disable_provider_sample :
  _disable_provider sample_flags 100 10 (mkAuthProvider 5 "okta" false) sample_db =
  Ok (mkDb [mkMember 1 10 (Some 100) 4; mkMember 2 10 None 0; mkMember 3 11 (Some 101) 3]
           [mkUser 100 false; mkUser 101 true]
           [AuditEntry 10 5 "SSO_DISABLE"; EmailUnlinkNotifications 10 100 "okta";
            DeleteAuthProvider 5]).
Proof. reflexivity. Qed.

End AuthSettingsFacts.

Module ProjectFilterDetailsFacts.
Import ProjectFilterDetails.

Section Endpoint.

Variables Data Errors Validated Project : Type.
Variable get_all_filter_specs : list (filter_spec Data Errors Validated).
Variable get_filter_state : string -> Project -> value.
Variable set_filter_state : string -> Project -> Validated -> Project * value.
Variable get_event_id : string -> Z.

Local Abbreviation find_filter :=
  (find_filter Data Errors Validated get_all_filter_specs).
Local Abbreviation put :=
  (put Data Errors Validated Project
     get_all_filter_specs get_filter_state set_filter_state get_event_id).


Lemma find_filter_Some filter_id flt :
  find_filter filter_id = Some flt ->
  In flt get_all_filter_specs /\ id flt = filter_id.
Proof.
  intros H. apply find_some in H. destruct H as [Hin Heq].
  split; [assumption|]. now apply String.eqb_eq.
Qed.

Lemma legacy_not_on_off filter_id :
  is_on_off filter_id = true -> String.eqb filter_id "legacy-browsers" = false.
Proof.
  destruct (String.eqb_spec filter_id "legacy-browsers") as [->|]; [|reflexivity].
  discriminate.
Qed.

(** The audit entry written for one of the three on/off filters. *)
Lemma put_on_off_audit request_data filter_id w flt v cur new p' :
  is_on_off filter_id = true ->
  find_filter filter_id = Some flt ->
  serializer_cls flt request_data = Valid v ->
  get_filter_state filter_id (project w) = VBool cur ->
  set_filter_state filter_id (project w) v = (p', VBool new) ->
  put request_data filter_id w =
  (mkWorld p'
     (audit_log w ++
      [mkAuditEntry
         (if cur && negb new then get_event_id "PROJECT_DISABLE"
          else get_event_id "PROJECT_ENABLE")
         (py_list (VStr filter_id))]),
   Ok (Response None 201)).
Proof.
  intros Ho Hf Hv Hg Hs. unfold ProjectFilterDetails.put.
  rewrite Hf, Hv, Hg, Hs, (legacy_not_on_off _ Ho), Ho.
  destruct cur, new; reflexivity.
Qed.









End Endpoint.




(** C5 on the sample project: switching "localhost" from on to off
    records PROJECT_DISABLE, switching it on records PROJECT_ENABLE, and
    in both cases the recorded state is the list of the characters of the
    filter id, not the filter id. *)
Theorem put_localhost_records_characters :
  sample_put "false" "localhost" (mkWorld {[ "localhost" := true ]} []) =
    (mkWorld {[ "localhost" := false ]}
       [mkAuditEntry (sample_get_event_id "PROJECT_DISABLE")
          (VList ["l"; "o"; "c"; "a"; "l"; "h"; "o"; "s"; "t"])],
     Ok (Response None 201)) /\
  sample_put "true" "localhost" (mkWorld {[ "localhost" := false ]} []) =
    (mkWorld {[ "localhost" := true ]}
       [mkAuditEntry (sample_get_event_id "PROJECT_ENABLE")
          (VList ["l"; "o"; "c"; "a"; "l"; "h"; "o"; "s"; "t"])],
     Ok (Response None 201)) /\
  VList ["l"; "o"; "c"; "a"; "l"; "h"; "o"; "s"; "t"] <> VStr "localhost".
Proof. repeat split; try discriminate; vm_compute; reflexivity. Qed.

Example put_unknown_filter :
  sample_put "true" "no-such-filter" (mkWorld ∅ []) = (mkWorld ∅ [], Raise ResourceDoesNotExist).
Proof. reflexivity. Qed.

Example put_rejected_payload :
  sample_put "maybe" "localhost" (mkWorld ∅ []) =
  (mkWorld ∅ [], Ok (Response (Some "Must be a valid boolean.") 400)).
Proof. reflexivity. Qed.

End ProjectFilterDetailsFacts.

Module PrCommentFacts.
Import PrComment.

Lemma format_single_issue (t s u : str) :
  format SINGLE_ISSUE_TEMPLATE [(lit "title", t); (lit "subtitle", s); (lit "url", u)] =
  Ok (lit "- " ++ [0x203C%N; 0xFE0F%N] ++ lit " **" ++ t ++ lit "** `" ++
      s ++ lit "` [View Issue](" ++ u ++ lit ")").
Proof. vm_compute. reflexivity. Qed.

Lemma format_body (issue_list : str) :
  format COMMENT_BODY_TEMPLATE [(lit "issue_list", issue_list)] =
  Ok (body_head ++ issue_list ++ body_tail).
Proof. vm_compute. reflexivity. Qed.

Lemma format_issues_bullets issues : format_issues issues = Ok (map bullet issues).
Proof.
  induction issues as [|issue rest IH]; [reflexivity|].
  cbn [format_issues map]. rewrite format_single_issue, IH. reflexivity.
Qed.

Lemma format_subtitle_long (s : str) :
  (50 < length s)%nat ->
  format_subtitle s = firstn 47 s ++ lit "..." /\ length (format_subtitle s) = 50%nat.
Proof.
  intros H. unfold format_subtitle.
  destruct (Nat.ltb_spec 50 (length s)); [|lia].
  split; [reflexivity|].
  rewrite length_app, length_firstn. change (length (lit "...")) with 3%nat. lia.
Qed.

Lemma format_subtitle_short (s : str) :
  (length s <= 50)%nat -> format_subtitle s = s.
Proof.
  intros H. unfold format_subtitle.
  destruct (Nat.ltb_spec 50 (length s)); [lia | reflexivity].
Qed.

Lemma join_newline_lines (line : PullRequestIssue -> str) issue rest :
  join newline (map line (issue :: rest)) =
  line issue ++ concat (map (fun i => newline ++ line i) rest).
Proof.
  revert issue. induction rest as [|j rest IH]; intros issue.
  - cbn. now rewrite app_nil_r.
  - change (join newline (map line (issue :: j :: rest)))
      with (line issue ++ newline ++ join newline (map line (j :: rest))).
    rewrite IH. cbn [map concat]. now rewrite <- !app_assoc.
Qed.

(** C6: the comment returned for a list of issues is the fixed body
    text with, between its head and its tail, one bullet line per issue
    in input order, each after the first preceded by a newline; the
    bullet line of an issue carries its title, its url and its subtitle,
    the subtitle cut to its first 47 characters followed by "..." when it
    is longer than 50 characters and unchanged otherwise.  No issue list
    makes the formatting fail. *)
Theorem format_comment_bullets (issues : list PullRequestIssue) :
  let rendered (subtitle : str) : str :=
    if (50 <? length subtitle)%nat then firstn 47 subtitle ++ lit "..." else subtitle in
  let line (issue : PullRequestIssue) : str :=
    lit "- " ++ [0x203C%N; 0xFE0F%N] ++ lit " **" ++ title issue ++ lit "** `" ++
    rendered (subtitle issue) ++ lit "` [View Issue](" ++ url issue ++ lit ")" in
  format_comment issues =
    Ok (lit "## Suspect Issues" ++ newline ++
        lit "This pull request has been deployed and Sentry has observed the following issues:"
        ++ newline ++ newline ++
        match issues with
        | [] => []
        | issue :: rest => line issue ++ concat (map (fun i => newline ++ line i) rest)
        end ++
        newline ++ newline ++
        lit "Have questions? Reach out to us in the #proj-github-pr-comments channel."
        ++ newline ++ newline ++
        lit "<sub>Did you find this useful? React with a " ++ [0x1F44D%N] ++ lit " or "
        ++ [0x1F44E%N] ++ lit "</sub>") /\
  (forall s : str, (50 < length s)%nat ->
     format_subtitle s = firstn 47 s ++ lit "..." /\ length (format_subtitle s) = 50%nat) /\
  (forall s : str, (length s <= 50)%nat -> format_subtitle s = s).
Proof.
  intros rendered line. split; [|split].
  - unfold format_comment. rewrite format_issues_bullets. cbn [bind].
    rewrite format_body. f_equal. unfold body_head, body_tail.
    rewrite <- !app_assoc. do 5 f_equal.
    destruct issues as [|issue rest]; [reflexivity|].
    rewrite (join_newline_lines bullet). rewrite <- !app_assoc. reflexivity.
  - apply format_subtitle_long.
  - apply format_subtitle_short.
Qed.

Example format_comment_two_issues :
  format_comment
    [mkIssue (lit "E1") (lit "short") (lit "u1");
     mkIssue (lit "E2")
       (lit "0123456789012345678901234567890123456789012345678901") (lit "u2")] =
  Ok (body_head ++
      lit "- " ++ [0x203C%N; 0xFE0F%N] ++ lit " **E1** `short` [View Issue](u1)" ++
      newline ++
      lit "- " ++ [0x203C%N; 0xFE0F%N] ++
      lit " **E2** `01234567890123456789012345678901234567890123456...` [View Issue](u2)" ++
      body_tail).
Proof. vm_compute. reflexivity. Qed.

End PrCommentFacts.

Module BitfieldDescriptorsFacts.
Import Bitfield BitfieldDescriptors.

Lemma index_None x l : index x l = None <-> ~ In x l.
Proof.
  split.
  - intros H Hin. destruct (BitfieldFacts.index_In _ _ Hin) as [i Hi]. congruence.
  - intros H. destruct (index x l) as [i|] eqn:E; [|reflexivity].
    apply BitfieldFacts.index_lookup in E. destruct E as [E _].
    exfalso. apply H. eapply nth_error_In; eauto.
Qed.

(** X1: Looking a flag up by name gives the set bit at the first position
    that holds that name; a name that is not a flag is an AttributeError. *)
Theorem getattr_finds_first_position (self : BitFieldFlags) (key : string) :
  match BitFieldFlags_getattr self key with
  | Ok b =>
      is_set b = true /\
      nth_error (_flags self) (number b) = Some key /\
      forall j, (j < number b)%nat -> nth_error (_flags self) j <> Some key
  | Raise e => e = AttributeError /\ ~ In key (_flags self)
  end.
Proof.
  unfold BitFieldFlags_getattr, contains, list_index.
  destruct (index key (_flags self)) as [i|] eqn:E; cbn.
  - apply BitfieldFacts.index_lookup in E. destruct E as (Hn & _ & Hj). auto.
  - split; [reflexivity|]. now apply index_None.
Qed.

Lemma bits_of_suffix (all pre l : list string) :
  NoDup all -> all = pre ++ l ->
  bits_of all l = Ok (map Bit_new (seq (length pre) (length l))).
Proof.
  intros Hnd. revert pre. induction l as [|x l IH]; intros pre Hall; [reflexivity|].
  cbn [bits_of]. unfold list_index.
  rewrite (BitfieldFacts.index_NoDup x all (length pre)); [|assumption|].
  - cbn [bind]. rewrite (IH (pre ++ [x])).
    + rewrite length_app. cbn [length]. rewrite Nat.add_1_r. reflexivity.
    + rewrite Hall, <- app_assoc. reflexivity.
  - rewrite Hall, nth_error_app2, Nat.sub_diag by lia. reflexivity.
Qed.

(** X2: With distinct flag names, [values] lists the bits 0, 1, ..., n-1 and
    [items] pairs every name with the bit of its own position. *)
Theorem items_pair_names_with_positions (self : BitFieldFlags) :
  NoDup (_flags self) ->
  keys self = _flags self /\
  values self = Ok (map Bit_new (seq 0 (length (_flags self)))) /\
  items self =
    Ok (combine (_flags self) (map Bit_new (seq 0 (length (_flags self))))).
Proof.
  intros Hnd. unfold keys, iterkeys, values, itervalues, items, iteritems.
  rewrite (bits_of_suffix (_flags self) [] (_flags self) Hnd eq_refl).
  repeat split.
Qed.

Lemma items_pair_names_with_positions_witness :
  keys (mkBitFieldFlags ["a"; "b"; "c"]) = ["a"; "b"; "c"] /\
  values (mkBitFieldFlags ["a"; "b"; "c"]) = Ok (map Bit_new (seq 0 3)) /\
  items (mkBitFieldFlags ["a"; "b"; "c"]) =
    Ok (combine ["a"; "b"; "c"] (map Bit_new (seq 0 3))).
Proof.
  apply (items_pair_names_with_positions (mkBitFieldFlags ["a"; "b"; "c"])).
  cbn [_flags]. repeat constructor; rewrite ?list_elem_of_In; simpl; intuition discriminate.
Defined.

Lemma to_python_keys (field : BitField) (value : py_value) :
  _keys (to_python field value) = flags field.
Proof. destruct value as [|z|b|h]; reflexivity. Qed.

Lemma to_python_object_handler (field : BitField) (value : assigned)
  (heap : list BitHandler) :
  (forall r, value = AHandler r -> (r < length heap)%nat) ->
  fst (to_python_object field value heap) !! snd (to_python_object field value heap) =
  Some (to_python field (deref heap value)).
Proof.
  intros Hwf. destruct value as [|z|b|r]; cbn [to_python_object fst snd].
  1-3: now rewrite lookup_app_r, Nat.sub_diag by lia.
  specialize (Hwf r eq_refl). apply lookup_lt_is_Some_2 in Hwf. destruct Hwf as [h Hh].
  unfold set_keys. rewrite list_lookup_alter_eq. cbn [deref]. rewrite Hh. reflexivity.
Qed.

Lemma to_python_object_others (field : BitField) (value : assigned)
  (heap : list BitHandler) (r' : nat) :
  r' <> snd (to_python_object field value heap) ->
  fst (to_python_object field value heap) !! r' = heap !! r'.
Proof.
  destruct value as [|z|b|r]; cbn [to_python_object fst snd]; intros Hne.
  1-3: destruct (Nat.lt_ge_cases r' (length heap)) as [Hlt|Hge];
    [now rewrite lookup_app_l by lia
    |rewrite (lookup_ge_None_2 heap r') by lia; apply lookup_ge_None_2;
     rewrite length_app; simpl; lia].
  unfold set_keys. now rewrite list_lookup_alter_ne by congruence.
Qed.

Lemma set_keys_same (keys : list string) (r : nat) (heap : list BitHandler) (h : BitHandler) :
  heap !! r = Some h -> _keys h = keys -> set_keys keys r heap = heap.
Proof.
  intros Hh Hk. unfold set_keys. apply list_eq. intros i.
  destruct (decide (i = r)) as [->|Hne].
  - rewrite list_lookup_alter_eq, Hh. cbn. destruct h as [v k l]. cbn in *. now subst k.
  - now rewrite list_lookup_alter_ne by congruence.
Qed.

(** X3: The descriptor works on handler objects.  Reading an attribute
    after assigning it returns the reference that was stored, and the
    handler behind it is what [to_python] makes of the assigned value.
    The assignment rebinds no other attribute and changes no other
    handler; a value that is not a handler gets a newly allocated one,
    so every other attribute reads as before.  An assigned handler is
    stored itself, with its keys replaced in place: an attribute that
    already holds that handler reads, through a descriptor whose field
    class is a subclass of BitField, a handler with the keys of the
    field assigned to.  Reading an attribute that was never stored
    raises KeyError; reading through a field of class BitField puts the
    field's flags into the stored handler in place, keeping value and
    labels. *)
Theorem descriptor_get_after_set
  (name : string) (field : BitField) (is_BitField : bool)
  (obj : gmap string nat) (heap : list BitHandler) (value : assigned) :
  (forall r, value = AHandler r -> (r < length heap)%nat) ->
  let heap1 := fst (BitFieldCreator_set name field obj value heap) in
  let obj1 := snd (BitFieldCreator_set name field obj value heap) in
  (exists r,
     BitFieldCreator_get name field is_BitField (Some obj1) heap1 =
       (heap1, Ok (InstanceValue r)) /\
     heap1 !! r = Some (to_python field (deref heap value)) /\
     (forall r', r' <> r -> heap1 !! r' = heap !! r') /\
     (forall r0, value = AHandler r0 -> r = r0) /\
     ((forall r0, value <> AHandler r0) ->
      r = length heap /\ heap1 = heap ++ [to_python field (deref heap value)])) /\
  (forall other, other <> name -> obj1 !! other = obj !! other) /\
  (forall other field' r0 h0,
     other <> name -> value = AHandler r0 -> obj !! other = Some r0 ->
     heap !! r0 = Some h0 ->
     BitFieldCreator_get other field' false (Some obj1) heap1 =
       (heap1, Ok (InstanceValue r0)) /\
     heap1 !! r0 = Some (BitHandler_new (_value h0) (flags field) (_labels h0))) /\
  (obj !! name = None ->
   BitFieldCreator_get name field is_BitField (Some obj) heap =
     (heap, Raise (KeyError name))) /\
  (forall r h, obj !! name = Some r -> heap !! r = Some h ->
     BitFieldCreator_get name field true (Some obj) heap =
       (<[r := BitHandler_new (_value h) (flags field) (_labels h)]> heap,
        Ok (InstanceValue r))).
Proof.
  intros Hwf heap1 obj1.
  assert (Hset : BitFieldCreator_set name field obj value heap =
                 (fst (to_python_object field value heap),
                  <[name := snd (to_python_object field value heap)]> obj)).
  { unfold BitFieldCreator_set. now destruct (to_python_object field value heap). }
  subst heap1 obj1. rewrite Hset. cbn [fst snd]. clear Hset.
  pose proof (to_python_object_handler field value heap Hwf) as Hh.
  split; [|split; [|split; [|split]]].
  - exists (snd (to_python_object field value heap)).
    split; [|split; [exact Hh|split; [|split]]].
    + unfold BitFieldCreator_get. rewrite lookup_insert_eq.
      destruct is_BitField; [|reflexivity].
      rewrite (set_keys_same _ _ _ _ Hh (to_python_keys field _)). reflexivity.
    + intros r' Hne. now apply to_python_object_others.
    + intros r0 ->. reflexivity.
    + intros Hplain. destruct value as [|z|b|r]; cbn [to_python_object fst snd];
        try (split; reflexivity).
      exfalso. now apply (Hplain r).
  - intros other Hne. now rewrite lookup_insert_ne by congruence.
  - intros other field' r0 h0 Hne -> Ho Hh0. cbn [to_python_object fst snd] in *.
    unfold BitFieldCreator_get. rewrite lookup_insert_ne by congruence. rewrite Ho.
    split; [reflexivity|]. rewrite Hh. cbn [deref]. rewrite Hh0. reflexivity.
  - intros Hnone. unfold BitFieldCreator_get. now rewrite Hnone.
  - intros r h Hr Hh0. unfold BitFieldCreator_get, set_keys. rewrite Hr. f_equal.
    apply list_eq. intros i. destruct (decide (i = r)) as [->|Hne].
    + rewrite list_lookup_alter_eq, Hh0.
      rewrite list_lookup_insert_eq by (eapply lookup_lt_Some; eauto). reflexivity.
    + rewrite list_lookup_alter_ne by congruence.
      now rewrite list_lookup_insert_ne by congruence.
Qed.

Lemma descriptor_get_after_set_witness :
  let heap1 := fst (BitFieldCreator_set "roles" sample_field_xyz {[ "flags" := 0%nat ]}
                      (AHandler 0) sample_heap) in
  let obj1 := snd (BitFieldCreator_set "roles" sample_field_xyz {[ "flags" := 0%nat ]}
                     (AHandler 0) sample_heap) in
  BitFieldCreator_get "flags" sample_field_ab false (Some obj1) heap1 =
    (heap1, Ok (InstanceValue 0%nat)) /\
  heap1 !! 0%nat = Some (BitHandler_new (Some 3) ["x"; "y"; "z"] ["a"; "b"]).
Proof.
  intros heap1 obj1.
  refine (proj1 (proj2 (proj2 (descriptor_get_after_set "roles" sample_field_xyz false
            {[ "flags" := 0%nat ]} sample_heap (AHandler 0) _)))
            "flags" sample_field_ab 0%nat (BitHandler_new (Some 3) ["a"; "b"] ["a"; "b"])
            _ eq_refl eq_refl eq_refl).
  - intros r [= <-]. simpl. lia.
  - discriminate.
Defined.

Lemma land_lnot_pow2 (i k : nat) :
  (i < k)%nat ->
  Z.land (Z.lnot (2 ^ Z.of_nat i)) (2 ^ Z.of_nat k - 1) = 2 ^ Z.of_nat k - 1 - 2 ^ Z.of_nat i.
Proof.
  intros Hlt.
  change (2 ^ Z.of_nat k - 1) with (Z.pred (2 ^ Z.of_nat k)). rewrite <- Z.ones_equiv.
  rewrite Z.land_comm, <- Z.ldiff_land.
  symmetry. apply Z.sub_nocarry_ldiff.
  apply Z.bits_inj'. intros n Hn.
  rewrite Z.ldiff_spec, Z.pow2_bits_eqb, Z.testbit_ones, Z.bits_0 by lia.
  destruct (Z.eqb_spec (Z.of_nat i) n), (Z.leb_spec 0 n), (Z.ltb_spec n (Z.of_nat k));
    simpl; try reflexivity; lia.
Qed.

(** X4: Converting the bit of a flag gives the handler of exactly that flag;
    converting its complement gives the handler of all other flags. *)
Theorem to_python_bit_and_complement (self : BitField) (i : nat) :
  (i < length (flags self))%nat ->
  to_python self (PBit (Bit_new i)) =
    BitHandler_new (Some (2 ^ Z.of_nat i)) (flags self) (labels self) /\
  to_python self (PBit (Bit_invert (Bit_new i))) =
    BitHandler_new (Some (2 ^ Z.of_nat (length (flags self)) - 1 - 2 ^ Z.of_nat i))
      (flags self) (labels self).
Proof.
  intros Hlt. unfold to_python, mask, Bit_invert, Bit_new. cbn [is_set number negb].
  assert (Hpos : 0 < 2 ^ Z.of_nat i) by (apply Z.pow_pos_nonneg; lia).
  split.
  - destruct (Z.ltb_spec (2 ^ Z.of_nat i) 0); [lia | reflexivity].
  - destruct (Z.ltb_spec (Z.lnot (2 ^ Z.of_nat i)) 0) as [_|H].
    + rewrite BitfieldFacts.visible_from_land, land_lnot_pow2 by assumption. reflexivity.
    + unfold Z.lnot in H. lia.
Qed.

Lemma to_python_bit_and_complement_witness :
  to_python (mkBitField [] ["a"; "b"; "c"] ["a"; "b"; "c"] DNone) (PBit (Bit_new 1)) =
    BitHandler_new (Some 2) ["a"; "b"; "c"] ["a"; "b"; "c"] /\
  to_python (mkBitField [] ["a"; "b"; "c"] ["a"; "b"; "c"] DNone)
    (PBit (Bit_invert (Bit_new 1))) =
    BitHandler_new (Some 5) ["a"; "b"; "c"] ["a"; "b"; "c"].
Proof.
  apply (to_python_bit_and_complement
           (mkBitField [] ["a"; "b"; "c"] ["a"; "b"; "c"] DNone) 1).
  simpl. lia.
Defined.

Lemma split_labels_names (l : list string) : split_labels (map FName l) = Ok (l, l).
Proof. induction l as [|x l IH]; [reflexivity|]. cbn. rewrite IH. reflexivity. Qed.

Lemma collect_flags_public annotations fl :
  collect_flags annotations = Ok fl ->
  fl = map fst (List.filter public annotations) /\
  Forall (fun entry => public entry = true -> snd entry = TyBool) annotations.
Proof.
  revert fl. induction annotations as [|[attr ty] rest IH]; intros fl H; cbn in H.
  - injection H as <-. split; [reflexivity | constructor].
  - cbn [List.filter]. unfold public at 1 2. cbn [fst snd].
    destruct (startswith_underscore attr) eqn:Eu; cbn [negb andb].
    + destruct (IH _ H) as [-> HF]. split; [reflexivity|].
      constructor; [|assumption]. unfold public. cbn [fst]. rewrite Eu. discriminate.
    + destruct (reserved attr) eqn:Er; cbn [negb].
      * destruct (IH _ H) as [-> HF]. split; [reflexivity|].
        constructor; [|assumption]. unfold public. cbn [fst]. rewrite Eu, Er. discriminate.
      * destruct ty; [|discriminate].
        destruct (collect_flags rest) as [fl'|] eqn:E; [|discriminate].
        cbn in H. injection H as <-. destruct (IH _ eq_refl) as [-> HF].
        split; [reflexivity|]. constructor; [reflexivity | assumption].
Qed.

(** X5: A typed bit-field declaration becomes a field whose flags are the
    annotated attribute names in declaration order, without the names
    that start with an underscore and without [bitfield_default] and
    [bitfield_null]; every flag is its own label, all of them are
    declared [bool], and there are at most 63. *)
Theorem typed_bitfield_flags_are_public_annotations
  (name : string) (annotations : list (string * annotation))
  (bitfield_default : default_arg) (f : BitField) :
  TypedBitfieldMeta_new name (Some annotations) bitfield_default = Ok (FieldOf f) ->
  flags f = map fst (List.filter public annotations) /\
  labels f = flags f /\
  Forall (fun entry => public entry = true -> snd entry = TyBool) annotations /\
  (length (flags f) <= 63)%nat.
Proof.
  unfold TypedBitfieldMeta_new. destruct (String.eqb name "TypedBitfield"); [discriminate|].
  destruct (collect_flags annotations) as [fl|] eqn:Ec; [|discriminate]. cbn [bind].
  destruct (collect_flags_public _ _ Ec) as [Hfl Hbool].
  unfold BitField_init. cbn [bind].
  destruct (Z.of_nat (length (map FName fl)) >? MAX_FLAG_COUNT) eqn:El; [discriminate|].
  rewrite split_labels_names. cbn [bind fst snd].
  assert (Hlen : (length fl <= 63)%nat).
  { destruct (le_lt_dec (length fl) 63) as [|Hgt]; [assumption|].
    rewrite <- (length_map FName) in Hgt. apply BitfieldFacts.too_many_iff in Hgt. congruence. }
  intros H.
  assert (Hf : flags f = fl /\ labels f = fl).
  { destruct bitfield_default as [| |D]; cbn in H.
    - injection H as <-. auto.
    - injection H as <-. auto.
    - destruct (pack_from 0 fl D); cbn in H; [|discriminate]. injection H as <-. auto. }
  destruct Hf as [Hf Hl]. rewrite Hf, Hl. auto.
Qed.

Lemma typed_bitfield_flags_are_public_annotations_witness :
  exists f,
    TypedBitfieldMeta_new "Flags"
      (Some [("_hidden", TyOther); ("a", TyBool); ("bitfield_default", TyOther);
             ("b", TyBool)]) (DColl ["b"]) = Ok (FieldOf f) /\
    flags f = ["a"; "b"] /\ labels f = flags f /\ default f = DInt 2.
Proof.
  eexists. split; [reflexivity|].
  destruct (typed_bitfield_flags_are_public_annotations "Flags"
              [("_hidden", TyOther); ("a", TyBool); ("bitfield_default", TyOther);
               ("b", TyBool)] (DColl ["b"]) _ eq_refl) as (Hf & Hl & _ & _).
  repeat split; assumption.
Defined.

(** X6: The first public attribute that is not declared [bool] stops the
    declaration with an assertion error naming it. *)
Theorem typed_bitfield_rejects_first_non_bool
  (name : string) (before after : list (string * annotation)) (attr : string)
  (bitfield_default : default_arg) :
  name <> "TypedBitfield" ->
  public (attr, TyOther) = true ->
  Forall (fun entry => public entry = true -> snd entry = TyBool) before ->
  TypedBitfieldMeta_new name (Some (before ++ (attr, TyOther) :: after)) bitfield_default =
  Raise (AssertionError attr).
Proof.
  intros Hname Hpub Hbefore. unfold TypedBitfieldMeta_new.
  destruct (String.eqb_spec name "TypedBitfield"); [contradiction|].
  assert (Hc : collect_flags (before ++ (attr, TyOther) :: after) = Raise (AssertionError attr)).
  { induction Hbefore as [|[a ty] rest Ha _ IH]; cbn.
    - unfold public in Hpub. cbn [fst] in Hpub.
      destruct (startswith_underscore attr); [discriminate|].
      destruct (reserved attr); [discriminate | reflexivity].
    - unfold public in Ha. cbn [fst snd] in Ha.
      destruct (startswith_underscore a); [exact IH|].
      destruct (reserved a); [exact IH|].
      rewrite (Ha eq_refl), IH. reflexivity. }
  rewrite Hc. reflexivity.
Qed.

Lemma typed_bitfield_rejects_first_non_bool_witness :
  TypedBitfieldMeta_new "Flags"
    (Some ([("a", TyBool); ("_x", TyOther)] ++ ("count", TyOther) :: [("b", TyOther)]))
    DNone = Raise (AssertionError "count").
Proof.
  apply (typed_bitfield_rejects_first_non_bool "Flags" [("a", TyBool); ("_x", TyOther)]
           [("b", TyOther)] "count" DNone).
  - discriminate.
  - reflexivity.
  - repeat constructor; discriminate.
Defined.

Lemma pack_from_members v fl D r :
  pack_from v fl D = Ok r -> forall d, In d D -> In d fl.
Proof.
  revert v. induction D as [|x D IH]; intros v H d Hd; [destruct Hd|].
  cbn in H. unfold list_index in H.
  destruct (index x fl) as [i|] eqn:Ei; [|discriminate]. cbn in H.
  destruct Hd as [<-|Hd]; [|eapply IH; eauto].
  apply BitfieldFacts.index_lookup in Ei. destruct Ei as [Ei _].
  eapply nth_error_In; eauto.
Qed.

Lemma Forall2_index_In fl D indices :
  Forall2 (fun d i => index d fl = Some i) D indices ->
  forall i, In i indices <-> exists d, In d D /\ index d fl = Some i.
Proof.
  induction 1 as [|d j D js Hd HF IH]; intros i; simpl.
  - split; [tauto | intros (d & [] & _)].
  - rewrite IH. split.
    + intros [<-|(d' & Hd' & Hi')]; [exists d | exists d']; auto.
    + intros (d' & [<-|Hd'] & Hi'); [left; congruence | right; eauto].
Qed.

Lemma or_of_bits_ext l1 l2 :
  (forall i, In i l1 <-> In i l2) -> or_of_bits l1 = or_of_bits l2.
Proof.
  intros H. apply Z.bits_inj'. intros n Hn.
  rewrite <- (Z2Nat.id n Hn).
  destruct (Z.testbit (or_of_bits l1) (Z.of_nat (Z.to_nat n))) eqn:E1;
    destruct (Z.testbit (or_of_bits l2) (Z.of_nat (Z.to_nat n))) eqn:E2; try reflexivity.
  - apply BitfieldFacts.or_of_bits_testbit, H, BitfieldFacts.or_of_bits_testbit in E1.
    congruence.
  - apply BitfieldFacts.or_of_bits_testbit, H, BitfieldFacts.or_of_bits_testbit in E2.
    congruence.
Qed.

(** X7: The packed default depends only on which names the collection
    contains, not on their order or repetition: a set, a list and any
    reordering of it give the same field. *)
Theorem default_depends_on_members_only
  (fl : flags_arg) (D D' : list string) (f : BitField) :
  (forall x, In x D <-> In x D') ->
  BitField_init fl (DColl D) = Ok f ->
  BitField_init fl (DColl D') = Ok f.
Proof.
  intros Hsame. unfold BitField_init.
  destruct (match fl with FlagsSeq l => Ok l | FlagsDict d => flags_of_dict d end)
    as [F|]; [|discriminate]. cbn [bind].
  destruct (Z.of_nat (length F) >? MAX_FLAG_COUNT); [discriminate|].
  destruct (split_labels F) as [[names labels]|]; [|discriminate]. cbn [bind fst snd].
  destruct (pack_from 0 names D) as [v|] eqn:Ep; [|discriminate]. cbn [bind].
  intros H. injection H as <-.
  pose proof (pack_from_members _ _ _ _ Ep) as Hin.
  destruct (BitfieldFacts.pack_from_spec names D 0 Hin) as (is1 & HF1 & Hp1).
  destruct (BitfieldFacts.pack_from_spec names D' 0) as (is2 & HF2 & Hp2).
  { intros d Hd. apply Hin, Hsame, Hd. }
  rewrite Hp2. cbn [bind]. rewrite Hp1 in Ep. injection Ep as <-.
  rewrite !Z.lor_0_l. do 3 f_equal. apply or_of_bits_ext. intros i.
  rewrite (Forall2_index_In _ _ _ HF1), (Forall2_index_In _ _ _ HF2).
  split; intros (d & Hd & Hi); exists d; split; auto; apply Hsame; auto.
Qed.

Lemma default_depends_on_members_only_witness :
  BitField_init (FlagsSeq [FName "a"; FName "b"; FName "c"]) (DColl ["a"; "c"; "a"]) =
  Ok (mkBitField [FName "a"; FName "b"; FName "c"] ["a"; "b"; "c"] ["a"; "b"; "c"]
        (DInt 5)).
Proof.
  apply (default_depends_on_members_only
           (FlagsSeq [FName "a"; FName "b"; FName "c"]) ["c"; "a"] ["a"; "c"; "a"]).
  - simpl. intuition.
  - reflexivity.
Defined.

Lemma fold_left_max_spec (l : list Z) (x : Z) :
  In (fold_left Z.max l x) (x :: l) /\ forall y, In y (x :: l) -> y <= fold_left Z.max l x.
Proof.
  revert x. induction l as [|a l IH]; intros x; cbn [fold_left].
  - split; [left; reflexivity | intros y [<-|[]]; lia].
  - destruct (IH (Z.max x a)) as [Hin Hmax]. split.
    + destruct Hin as [Heq|Hin]; [|right; right; exact Hin].
      rewrite <- Heq. destruct (Z.max_spec x a) as [[_ ->]|[_ ->]]; [right; left|left]; reflexivity.
    + intros y [Hy|[Hy|Hy]].
      * specialize (Hmax (Z.max x a) (or_introl eq_refl)). lia.
      * specialize (Hmax (Z.max x a) (or_introl eq_refl)). lia.
      * apply Hmax. right. exact Hy.
Qed.

Lemma py_max_is (l : list Z) (m : Z) :
  In m l -> (forall y, In y l -> y <= m) -> py_max l = Ok m.
Proof.
  intros Hin Hle. destruct l as [|x l]; [destruct Hin|]. cbn [py_max]. f_equal.
  destruct (fold_left_max_spec l x) as [Hr Hmax].
  specialize (Hmax m Hin). specialize (Hle _ Hr). lia.
Qed.

Lemma valid_keys_In (d : gmap Z flag_item) (k : Z) :
  In k (valid_keys d) <-> (0 <= k < 63 /\ is_Some (d !! k)).
Proof.
  unfold valid_keys. rewrite filter_In, in_map_iff, BitfieldFacts.MAX_FLAG_COUNT_eq.
  rewrite andb_true_iff, Z.leb_le, Z.ltb_lt. split.
  - intros [([k' v] & <- & Hin) Hr]. split; [exact Hr|].
    apply list_elem_of_In, elem_of_map_to_list in Hin. cbn. eauto.
  - intros [Hr [v Hv]]. split; [|exact Hr].
    exists (k, v). split; [reflexivity|]. now apply list_elem_of_In, elem_of_map_to_list.
Qed.

(** X8: A dict of flags without any integer key in [0, 63), the empty dict
    included, is refused by [max] on an empty sequence: the check meant
    to report wrong keys tests a generator, which is never false. *)
Theorem dict_without_valid_key_fails_in_max
  (d : gmap Z flag_item) (default : default_arg) :
  (forall k, 0 <= k < 63 -> d !! k = None) ->
  BitField_init (FlagsDict d) default = Raise EmptyMax.
Proof.
  intros Hnone. unfold BitField_init, flags_of_dict. fold (valid_keys d).
  destruct (valid_keys d) as [|k ks] eqn:E; [reflexivity|].
  assert (Hin : In k (valid_keys d)) by (rewrite E; left; reflexivity).
  apply valid_keys_In in Hin. destruct Hin as [Hr [v Hv]].
  rewrite (Hnone k Hr) in Hv. discriminate.
Qed.

Lemma dict_without_valid_key_fails_in_max_witness :
  BitField_init (FlagsDict {[ 63 := FName "late"; (-1) := FName "early" ]}) DNone =
  Raise EmptyMax.
Proof.
  apply (dict_without_valid_key_fails_in_max
           {[ 63 := FName "late"; (-1) := FName "early" ]} DNone).
  intros k Hk. rewrite lookup_insert_ne by lia. apply lookup_singleton_ne. lia.
Defined.

(** X9: A dict of flags whose largest integer key in [0, 63) is [m] is read
    as the list of its entries at 0, 1, ..., m, an absent position
    standing for the empty name; keys outside the range are ignored, so
    the list has m + 1 <= 63 entries and is never too long. *)
Theorem dict_flags_fill_gaps
  (d : gmap Z flag_item) (m : Z) (default : default_arg) :
  0 <= m < 63 ->
  is_Some (d !! m) ->
  (forall k, m < k < 63 -> d !! k = None) ->
  let l := map (fun i => match d !! i with Some v => v | None => FName EmptyString end)
             (range (m + 1)) in
  flags_of_dict d = Ok l /\
  Z.of_nat (length l) = m + 1 /\
  BitField_init (FlagsDict d) default = BitField_init (FlagsSeq l) default /\
  BitField_init (FlagsDict d) default <> Raise TooManyFlags.
Proof.
  intros Hm Hsome Habove l.
  assert (Hflags : flags_of_dict d = Ok l).
  { unfold flags_of_dict. fold (valid_keys d). rewrite (py_max_is (valid_keys d) m).
    - reflexivity.
    - apply valid_keys_In. auto.
    - intros y Hy. apply valid_keys_In in Hy. destruct Hy as [Hr [v Hv]].
      destruct (Z.le_gt_cases y m) as [|Hgt]; [assumption|].
      rewrite (Habove y) in Hv by lia. discriminate. }
  assert (Hlen : Z.of_nat (length l) = m + 1).
  { unfold l, range. rewrite !length_map, length_seq. lia. }
  split; [exact Hflags|]. split; [exact Hlen|].
  assert (Heq : BitField_init (FlagsDict d) default = BitField_init (FlagsSeq l) default).
  { unfold BitField_init. rewrite Hflags. reflexivity. }
  split; [exact Heq|]. rewrite Heq.
  unfold BitField_init. cbn [bind].
  destruct (Z.of_nat (length l) >? MAX_FLAG_COUNT) eqn:E.
  - apply BitfieldFacts.too_many_iff in E. lia.
  - intros H. destruct (split_labels l) as [[ns ls]|e] eqn:Es; cbn in H;
      [| apply BitfieldFacts.split_labels_raise in Es; congruence].
    destruct default as [| |D]; cbn in H; try discriminate.
    destruct (pack_from 0 ns D) eqn:Ep; cbn in H; [discriminate|].
    apply BitfieldFacts.pack_from_raise in Ep. destruct Ep. congruence.
Qed.

Lemma dict_flags_fill_gaps_witness :
  let d : gmap Z flag_item := {[ 0 := FName "a"; 2 := FName "c"; 70 := FName "z" ]} in
  flags_of_dict d = Ok [FName "a"; FName EmptyString; FName "c"] /\
  BitField_init (FlagsDict d) DNone =
    BitField_init (FlagsSeq [FName "a"; FName EmptyString; FName "c"]) DNone /\
  BitField_init (FlagsDict d) DNone <> Raise TooManyFlags.
Proof.
  intros d.
  destruct (dict_flags_fill_gaps d 2 DNone) as (H1 & _ & H2 & H3).
  - lia.
  - eexists. reflexivity.
  - intros k Hk. subst d. rewrite !lookup_insert_ne by lia. apply lookup_singleton_ne. lia.
  - repeat split; assumption.
Defined.

End BitfieldDescriptorsFacts.

Module AuthSettingsQueriesFacts.
Import Bitfield AuthSettings AuthSettingsQueries.

Lemma land_lnot_pow2_fixed (v : Z) (i : nat) :
  (v =? Z.land v (Z.lnot (2 ^ Z.of_nat i))) = negb (Z.testbit v (Z.of_nat i)).
Proof.
  destruct (Z.testbit v (Z.of_nat i)) eqn:E; cbn [negb].
  - apply Z.eqb_neq. intros H.
    assert (Hb : Z.testbit (Z.land v (Z.lnot (2 ^ Z.of_nat i))) (Z.of_nat i) = true)
      by (rewrite <- H; exact E).
    rewrite Z.land_spec, Z.lnot_spec, Z.pow2_bits_eqb, Z.eqb_refl, andb_false_r in Hb by lia.
    discriminate.
  - apply Z.eqb_eq. apply Z.bits_inj'. intros n Hn.
    rewrite Z.land_spec, Z.lnot_spec, Z.pow2_bits_eqb by lia.
    destruct (Z.eqb_spec (Z.of_nat i) n) as [<-|]; cbn [negb].
    + rewrite E. reflexivity.
    + now rewrite andb_true_r.
Qed.

Section Facts.

Variable flags : list string.

Lemma bitand2_idempotent (v : Z) (a b : Bit) :
  bitand2 (bitand2 v a b) a b = bitand2 v a b.
Proof.
  unfold bitand2. apply Z.bits_inj'. intros n _. rewrite !Z.land_spec.
  destruct (Z.testbit v n), (Z.testbit (mask a) n), (Z.testbit (mask b) n); reflexivity.
Qed.

Lemma is_member_user_In organization members u :
  is_member_user organization members u = true <->
  exists m, In m members /\ organization_id m = organization /\ user_id m = Some (uid u).
Proof.
  unfold is_member_user, members_of. rewrite existsb_exists. split.
  - intros (m & Hin & Hm). apply filter_In in Hin. destruct Hin as [Hin Ho].
    exists m. apply Z.eqb_eq in Ho. destruct (user_id m) as [i|]; [|discriminate].
    apply Z.eqb_eq in Hm. subst. auto.
  - intros (m & Hin & Ho & Hu). exists m. rewrite filter_In, Hu. repeat split.
    + assumption.
    + now apply Z.eqb_eq.
    + apply Z.eqb_refl.
Qed.

Lemma is_member_user_map organization (f : OrganizationMember -> OrganizationMember) ms u :
  (forall m, organization_id (f m) = organization_id m /\ user_id (f m) = user_id m) ->
  is_member_user organization (map f ms) u = is_member_user organization ms u.
Proof.
  intros Hf. unfold is_member_user, members_of.
  induction ms as [|m ms IH]; [reflexivity|]. cbn [map List.filter].
  destruct (Hf m) as [Ho Hu]. rewrite Ho.
  destruct (organization_id m =? organization); [|exact IH].
  cbn [existsb]. rewrite Hu. f_equal. exact IH.
Qed.

Lemma clear_bits_keeps_owner organization (a b : Bit) (m : OrganizationMember) :
  organization_id
    (if organization_id m =? organization
     then mkMember (member_id m) (organization_id m) (user_id m)
            (bitand2 (member_flags m) a b)
     else m) = organization_id m /\
  user_id
    (if organization_id m =? organization
     then mkMember (member_id m) (organization_id m) (user_id m)
            (bitand2 (member_flags m) a b)
     else m) = user_id m.
Proof. destruct (organization_id m =? organization); split; reflexivity. Qed.

Lemma member_user_ids organization ms u :
  existsb (Z.eqb (uid u))
    (omap user_id (List.filter (fun m => organization_id m =? organization) ms)) =
  is_member_user organization ms u.
Proof.
  unfold is_member_user, members_of.
  induction ms as [|m ms IH]; [reflexivity|]. cbn [List.filter].
  destruct (organization_id m =? organization); [|exact IH].
  cbn [existsb]. rewrite <- IH.
  destruct (user_id m) as [i|] eqn:Ei.
  - change (omap user_id (m :: ?l)) with
      (match user_id m with Some y => y :: omap user_id l | None => omap user_id l end).
    rewrite Ei. cbn [existsb]. now rewrite (Z.eqb_sym i (uid u)).
  - change (omap user_id (m :: ?l)) with
      (match user_id m with Some y => y :: omap user_id l | None => omap user_id l end).
    rewrite Ei. reflexivity.
Qed.

Lemma pending_after_clear organization (l i : Bit) (ms : list OrganizationMember) :
  length
    (List.filter
       (fun m => (organization_id m =? organization)
                 && (member_flags m =? Z.land (member_flags m) (mask (Bit_invert l))))
       (map (fun m =>
               if organization_id m =? organization
               then mkMember (member_id m) (organization_id m) (user_id m)
                      (bitand2 (member_flags m) (Bit_invert l) (Bit_invert i))
               else m) ms)) =
  length (members_of organization ms).
Proof.
  unfold members_of. induction ms as [|m ms IH]; [reflexivity|].
  cbn [map List.filter].
  destruct (organization_id m =? organization) eqn:Eo.
  - cbn [organization_id member_flags]. rewrite Eo. cbn [andb].
    replace (_ =? _) with true; [cbn [length]; now rewrite IH|].
    symmetry. apply Z.eqb_eq. unfold bitand2. apply Z.bits_inj'. intros n _.
    rewrite !Z.land_spec.
    destruct (Z.testbit (member_flags m) n), (Z.testbit (mask (Bit_invert l)) n),
      (Z.testbit (mask (Bit_invert i)) n); reflexivity.
  - rewrite Eo. exact IH.
Qed.

Lemma disable_provider_tables request_user organization auth_provider s s' :
  _disable_provider flags request_user organization auth_provider s = Ok s' ->
  exists linked invalid,
    member_flag flags "sso:linked" = Ok linked /\
    member_flag flags "sso:invalid" = Ok invalid /\
    members s' =
      map (fun m =>
             if organization_id m =? organization
             then mkMember (member_id m) (organization_id m) (user_id m)
                    (bitand2 (member_flags m) (Bit_invert linked) (Bit_invert invalid))
             else m) (members s) /\
    users s' =
      map (fun u => if is_member_user organization (members s) u
                    then mkUser (uid u) false else u) (users s).
Proof.
  unfold _disable_provider. intros H.
  destruct (member_flag flags "sso:linked") as [linked|]; [|discriminate].
  destruct (member_flag flags "sso:invalid") as [invalid|]; [|discriminate].
  cbn [bind] in H. injection H as <-. exists linked, invalid. cbn [members users].
  repeat split. apply map_ext. intros u.
  rewrite member_user_ids, is_member_user_map; [reflexivity|].
  intros m. apply clear_bits_keeps_owner.
Qed.

(** X11: Disabling the provider marks every user who has a membership in the
    organization as no longer managed and leaves every other user row as
    it was. *)
Theorem disable_provider_unmanages_member_users
  (request_user organization : Z) (auth_provider : AuthProvider) (s s' : db) :
  _disable_provider flags request_user organization auth_provider s = Ok s' ->
  Forall2
    (fun u u' =>
       uid u' = uid u /\
       ((exists m, In m (members s) /\ organization_id m = organization /\
                   user_id m = Some (uid u)) ->
        is_managed u' = false) /\
       ((forall m, In m (members s) -> organization_id m = organization ->
                   user_id m <> Some (uid u)) ->
        u' = u))
    (users s) (users s').
Proof.
  intros H. destruct (disable_provider_tables _ _ _ _ _ H) as (l & i & _ & _ & _ & ->).
  induction (users s) as [|u us IH]; cbn [map]; constructor; [|exact IH].
  destruct (is_member_user organization (members s) u) eqn:E.
  - repeat split; intros Hno. exfalso.
    apply is_member_user_In in E. destruct E as (m & Hin & Ho & Hu).
    exact (Hno m Hin Ho Hu).
  - repeat split; intros Hyes. apply is_member_user_In in Hyes. congruence.
Qed.


(** X10: The pending-links query counts exactly the members of the
    organization whose "sso:linked" bit is clear. *)
Theorem pending_links_are_unlinked_members
  (organization : Z) (members : list OrganizationMember) (linked : nat) :
  (length flags <= 63)%nat ->
  index "sso:linked" flags = Some linked ->
  pending_links_count flags organization members =
  Ok (length
        (List.filter (fun m => negb (Z.testbit (member_flags m) (Z.of_nat linked)))
           (members_of organization members))).
Proof.
  intros Hlen Hi. unfold pending_links_count, members_of.
  rewrite (AuthSettingsFacts.member_flag_index flags _ _ Hlen Hi). cbn [bind].
  do 2 f_equal. unfold mask, Bit_invert, Bit_new. cbn [is_set number negb].
  induction members as [|m ms IH]; [reflexivity|]. cbn [List.filter].
  rewrite land_lnot_pow2_fixed.
  destruct (organization_id m =? organization); cbn [andb List.filter];
    [destruct (negb (Z.testbit (member_flags m) (Z.of_nat linked)))|]; now rewrite IH.
Qed.

(** X12: The two table updates are idempotent: when a run for an
    organization is followed by another run for the same organization,
    for whichever provider and requesting user, and both return, the
    second leaves the member rows and the user rows as the first left
    them. *)
Theorem disable_provider_updates_are_idempotent
  (request_user request_user' organization : Z)
  (auth_provider auth_provider' : AuthProvider) (s s1 s2 : db) :
  _disable_provider flags request_user organization auth_provider s = Ok s1 ->
  _disable_provider flags request_user' organization auth_provider' s1 = Ok s2 ->
  members s2 = members s1 /\
  users s2 = users s1.
Proof.
  intros H E2. destruct (disable_provider_tables _ _ _ _ _ H) as (l & i & Hl & Hi & Hm & Hu).
  destruct (disable_provider_tables _ _ _ _ _ E2) as (l' & i' & Hl' & Hi' & Hm' & Hu').
  rewrite Hl in Hl'. injection Hl' as <-. rewrite Hi in Hi'. injection Hi' as <-.
  assert (Hmem : forall u, is_member_user organization (members s1) u =
                           is_member_user organization (members s) u).
  { intros u. rewrite Hm. apply is_member_user_map.
    intros m. apply clear_bits_keeps_owner. }
  split.
  - rewrite Hm', Hm, map_map. apply map_ext. intros m.
    destruct (organization_id m =? organization) eqn:Eo; cbn [organization_id];
      rewrite Eo; [|reflexivity].
    cbn [member_id user_id member_flags]. now rewrite bitand2_idempotent.
  - rewrite Hu', Hu, map_map. apply map_ext. intros u.
    destruct (is_member_user organization (members s) u) eqn:Eu.
    + replace (is_member_user organization (members s1) (mkUser (uid u) false)) with true;
        [reflexivity|].
      symmetry. rewrite <- Eu, <- Hmem. reflexivity.
    + now rewrite Hmem, Eu.
Qed.

(** X13: After the provider is disabled every member of the organization
    counts as a pending link. *)
Theorem disable_provider_leaves_all_members_pending
  (request_user organization : Z) (auth_provider : AuthProvider) (s s' : db) :
  _disable_provider flags request_user organization auth_provider s = Ok s' ->
  pending_links_count flags organization (members s') =
  Ok (length (members_of organization (members s))).
Proof.
  intros H. destruct (disable_provider_tables _ _ _ _ _ H) as (l & i & Hl & Hi & Hm & _).
  unfold pending_links_count. rewrite Hl. cbn [bind]. f_equal. rewrite Hm.
  apply pending_after_clear.
Qed.

End Facts.
Lemma disable_provider_unmanages_member_users_witness :
  exists s',
    _disable_provider sample_flags 100 10 (mkAuthProvider 5 "okta" true) sample_db = Ok s' /\
    users s' = [mkUser 100 false; mkUser 101 true] /\
    Forall2
      (fun u u' =>
         uid u' = uid u /\
         ((exists m, In m (members sample_db) /\ organization_id m = 10 /\
                     user_id m = Some (uid u)) ->
          is_managed u' = false) /\
         ((forall m, In m (members sample_db) -> organization_id m = 10 ->
                     user_id m <> Some (uid u)) ->
          u' = u))
      (users sample_db) (users s').
Proof.
  eexists. split; [reflexivity|]. split; [reflexivity|].
  apply (disable_provider_unmanages_member_users sample_flags 100 10
           (mkAuthProvider 5 "okta" true) sample_db).
  reflexivity.
Defined.

Lemma pending_links_are_unlinked_members_witness :
  pending_links_count sample_flags 10 (members sample_db) = Ok 1%nat.
Proof.
  apply (pending_links_are_unlinked_members sample_flags 10 (members sample_db) 0).
  - simpl. lia.
  - reflexivity.
Defined.

Lemma disable_provider_updates_are_idempotent_witness :
  exists s1 s2,
    _disable_provider sample_flags 100 10 (mkAuthProvider 5 "okta" true) sample_db = Ok s1 /\
    _disable_provider sample_flags 101 10 (mkAuthProvider 6 "saml2" false) s1 = Ok s2 /\
    members s2 = members s1 /\
    users s2 = users s1.
Proof.
  eexists _, _. split; [reflexivity|]. split; [reflexivity|].
  apply (disable_provider_updates_are_idempotent sample_flags 100 101 10
           (mkAuthProvider 5 "okta" true) (mkAuthProvider 6 "saml2" false) sample_db);
    reflexivity.
Defined.

Lemma disable_provider_leaves_all_members_pending_witness :
  exists s',
    _disable_provider sample_flags 100 10 (mkAuthProvider 5 "okta" true) sample_db = Ok s' /\
    pending_links_count sample_flags 10 (members sample_db) = Ok 1%nat /\
    pending_links_count sample_flags 10 (members s') = Ok 2%nat.
Proof.
  eexists. split; [reflexivity|]. split; [reflexivity|].
  apply (disable_provider_leaves_all_members_pending sample_flags 100 10
           (mkAuthProvider 5 "okta" true) sample_db).
  reflexivity.
Defined.

End AuthSettingsQueriesFacts.

Module ProjectFilterStatesFacts.
Import ProjectFilterDetails ProjectFilterStates.

Lemma difference_empty_subset (a b : gset string) (x : string) :
  a ∖ b = ∅ -> x ∈ a -> x ∈ b.
Proof.
  intros H Hx. assert (Ha : x ∉ a ∖ b) by (rewrite H; apply not_elem_of_empty).
  rewrite elem_of_difference in Ha. destruct (decide (x ∈ b)); tauto.
Qed.

Lemma differences_empty_equal (a b : gset string) :
  a ∖ b = ∅ -> b ∖ a = ∅ -> b = a.
Proof.
  intros H1 H2. apply set_eq. intros x. split; apply difference_empty_subset; assumption.
Qed.

Lemma In_elements_difference (a b : gset string) (x : string) :
  In x (elements (a ∖ b)) <-> x ∈ a /\ x ∉ b.
Proof. now rewrite <- list_elem_of_In, elem_of_elements, elem_of_difference. Qed.

Lemma In_elements (a : gset string) (x : string) : In x (elements a) <-> x ∈ a.
Proof. now rewrite <- list_elem_of_In, elem_of_elements. Qed.

Section Endpoint.

Variables Data Errors Validated Project : Type.
Variable get_all_filter_specs : list (filter_spec Data Errors Validated).
Variable get_filter_state : string -> Project -> value.
Variable set_filter_state : string -> Project -> Validated -> Project * value.
Variable get_event_id : string -> Z.

Local Abbreviation find_filter :=
  (find_filter Data Errors Validated get_all_filter_specs).
Local Abbreviation put :=
  (put Data Errors Validated Project
     get_all_filter_specs get_filter_state set_filter_state get_event_id).

(** X14: For the legacy-browsers filter with sub-filter states: when the
    update removes sub-filters, the audit entry is PROJECT_DISABLE and
    lists exactly the removed ones, also when others were added at the
    same time; when it only adds, the entry is PROJECT_ENABLE and lists
    exactly the added ones; when nothing changes, it is PROJECT_ENABLE
    with the unchanged sub-filters. *)
Theorem put_legacy_browsers_reports_removed_first
  (request_data : Data) (w : world Project) (flt : filter_spec Data Errors Validated)
  (v : Validated) (p' : Project) (new_state : value) (current new : gset string) :
  find_filter "legacy-browsers" = Some flt ->
  serializer_cls flt request_data = Valid v ->
  subfilters (get_filter_state "legacy-browsers" (project w)) = Some current ->
  set_filter_state "legacy-browsers" (project w) v = (p', new_state) ->
  subfilters new_state = Some new ->
  exists ev reported,
    put request_data "legacy-browsers" w =
      (mkWorld p' (audit_log w ++ [mkAuditEntry ev (VList reported)]),
       Ok (Response None 201)) /\
    NoDup reported /\
    (current ∖ new <> ∅ ->
     ev = get_event_id "PROJECT_DISABLE" /\
     forall x, In x reported <-> x ∈ current /\ x ∉ new) /\
    (current ∖ new = ∅ -> new ∖ current <> ∅ ->
     ev = get_event_id "PROJECT_ENABLE" /\
     forall x, In x reported <-> x ∈ new /\ x ∉ current) /\
    (current ∖ new = ∅ -> new ∖ current = ∅ ->
     ev = get_event_id "PROJECT_ENABLE" /\ new = current /\
     forall x, In x reported <-> x ∈ new).
Proof.
  intros Hf Hv Hc Hs Hn.
  assert (Hput : put request_data "legacy-browsers" w =
    (mkWorld p'
       (audit_log w ++
        [if bool_decide (current ∖ new = ∅)
         then if bool_decide (new ∖ current = ∅)
              then mkAuditEntry (get_event_id "PROJECT_ENABLE") (VList (elements new))
              else mkAuditEntry (get_event_id "PROJECT_ENABLE")
                     (VList (elements (new ∖ current)))
         else mkAuditEntry (get_event_id "PROJECT_DISABLE")
                (VList (elements (current ∖ new)))]),
     Ok (Response None 201))).
  { unfold ProjectFilterDetails.put. rewrite Hf, Hv, Hs.
    change (is_on_off "legacy-browsers") with false.
    change (String.eqb "legacy-browsers" "legacy-browsers") with true.
    assert (Hcur : (if is_list (get_filter_state "legacy-browsers" (project w))
                    then py_set (get_filter_state "legacy-browsers" (project w))
                    else get_filter_state "legacy-browsers" (project w)) = VSet current).
    { destruct (get_filter_state "legacy-browsers" (project w)); cbn in Hc |- *;
        congruence. }
    assert (Hnew : (if is_list new_state then py_set new_state else new_state) = VSet new).
    { destruct new_state; cbn in Hn |- *; congruence. }
    rewrite Hcur, Hnew. unfold legacy_browsers. cbn [is_bool orb py_sub bind truthy].
    destruct (bool_decide (current ∖ new = ∅)) eqn:E1; cbn [negb bind].
    - destruct (bool_decide (new ∖ current = ∅)) eqn:E2; cbn [negb bind]; [|reflexivity].
      cbn [py_eq]. apply bool_decide_eq_true in E1. apply bool_decide_eq_true in E2.
      assert (Heq : new = current) by (apply differences_empty_equal; assumption).
      rewrite bool_decide_eq_true_2 by exact Heq. reflexivity.
    - reflexivity. }
  rewrite Hput. clear Hput.
  destruct (bool_decide (current ∖ new = ∅)) eqn:E1;
    [destruct (bool_decide (new ∖ current = ∅)) eqn:E2|].
  - apply bool_decide_eq_true in E1. apply bool_decide_eq_true in E2.
    eexists _, _. split; [reflexivity|].
    split; [apply NoDup_elements|]. split; [|split].
    + intros H. contradiction.
    + intros _ H. contradiction.
    + intros _ _. split; [reflexivity|]. split; [now apply differences_empty_equal|].
      intros x. apply In_elements.
  - apply bool_decide_eq_true in E1. apply bool_decide_eq_false in E2.
    eexists _, _. split; [reflexivity|].
    split; [apply NoDup_elements|]. split; [|split].
    + intros H. contradiction.
    + intros _ _. split; [reflexivity|]. intros x. apply In_elements_difference.
    + intros _ H. contradiction.
  - apply bool_decide_eq_false in E1. eexists _, _. split; [reflexivity|].
    split; [apply NoDup_elements|]. split; [|split].
    + intros _. split; [reflexivity|]. intros x. apply In_elements_difference.
    + intros H. contradiction.
    + intros H. contradiction.
Qed.

(** X26: For one of the three on/off filters with boolean states, a valid
    request sets the state, is answered with 201 and appends one audit
    entry: PROJECT_DISABLE exactly when the filter was on and is now off,
    PROJECT_ENABLE otherwise; the state it records is the list of the
    characters of the filter id. *)
Theorem put_on_off_filter_audit_entry
  (request_data : Data) (filter_id : string) (w : world Project)
  (flt : filter_spec Data Errors Validated) (v : Validated) (cur new : bool) (p' : Project) :
  is_on_off filter_id = true ->
  find_filter filter_id = Some flt ->
  serializer_cls flt request_data = Valid v ->
  get_filter_state filter_id (project w) = VBool cur ->
  set_filter_state filter_id (project w) v = (p', VBool new) ->
  put request_data filter_id w =
    (mkWorld p'
       (audit_log w ++
        [mkAuditEntry
           (if cur && negb new then get_event_id "PROJECT_DISABLE"
            else get_event_id "PROJECT_ENABLE")
           (VList (map (fun c => String c EmptyString) (String.list_ascii_of_string filter_id)))]),
     Ok (Response None 201)) /\
  (cur && negb new = true <-> py_sub (VBool cur) (VBool new) = Ok (VInt 1)).
Proof.
  intros Ho Hf Hv Hg Hs. split.
  - rewrite (ProjectFilterDetailsFacts.put_on_off_audit _ _ _ _ _ _ _ _ _ _ _ _ _ _ _ _
               Ho Hf Hv Hg Hs). reflexivity.
  - destruct cur, new; cbn; split; intros H; try reflexivity; discriminate H.
Qed.

End Endpoint.

Lemma put_legacy_browsers_reports_removed_first_witness :
  let current : gset string := {[ "ie_pre_9"; "safari_pre_6" ]} in
  let new : gset string := list_to_set ["safari_pre_6"; "opera_pre_15"] in
  exists ev reported,
    legacy_put ["safari_pre_6"; "opera_pre_15"] "legacy-browsers" (mkWorld current []) =
      (mkWorld new ([] ++ [mkAuditEntry ev (VList reported)]), Ok (Response None 201)) /\
    NoDup reported /\
    (current ∖ new <> ∅ ->
     ev = sample_get_event_id "PROJECT_DISABLE" /\
     forall x, In x reported <-> x ∈ current /\ x ∉ new) /\
    (current ∖ new = ∅ -> new ∖ current <> ∅ ->
     ev = sample_get_event_id "PROJECT_ENABLE" /\
     forall x, In x reported <-> x ∈ new /\ x ∉ current) /\
    (current ∖ new = ∅ -> new ∖ current = ∅ ->
     ev = sample_get_event_id "PROJECT_ENABLE" /\ new = current /\
     forall x, In x reported <-> x ∈ new).
Proof.
  intros current new.
  apply (put_legacy_browsers_reports_removed_first (list string) string (list string)
           (gset string) [legacy_spec] (fun _ p => VSet p)
           (fun _ _ v => (list_to_set v, VList v)) sample_get_event_id
           ["safari_pre_6"; "opera_pre_15"] (mkWorld current []) legacy_spec
           ["safari_pre_6"; "opera_pre_15"] new
           (VList ["safari_pre_6"; "opera_pre_15"]) current new);
    reflexivity.
Defined.

Lemma put_on_off_filter_audit_entry_witness :
  let w := mkWorld ({[ "localhost" := true ]} : gmap string bool) [] in
  sample_put "false" "localhost" w =
    (mkWorld (<[ "localhost" := false ]> (project w))
       (audit_log w ++
        [mkAuditEntry
           (if true && negb false then sample_get_event_id "PROJECT_DISABLE"
            else sample_get_event_id "PROJECT_ENABLE")
           (VList (map (fun c => String c EmptyString)
                     (String.list_ascii_of_string "localhost")))]),
     Ok (Response None 201)) /\
  (true && negb false = true <-> py_sub (VBool true) (VBool false) = Ok (VInt 1)).
Proof.
  intros w.
  apply (put_on_off_filter_audit_entry string string bool (gmap string bool)
           sample_specs sample_get_filter_state sample_set_filter_state sample_get_event_id
           "false" "localhost" w (mkFilterSpec "localhost" sample_serializer) false true false
           (<[ "localhost" := false ]> (project w)));
    reflexivity.
Defined.

End ProjectFilterStatesFacts.

Module PrCommentWorkflowFacts.
Import PrComment PrCommentWorkflow.

(** X15: A rendered subtitle has the length of the subtitle, capped at 50, and
    starts with the same 47 characters; rendering it again changes
    nothing. *)
Theorem format_subtitle_is_capped (s : str) :
  length (format_subtitle s) = Nat.min (length s) 50 /\
  firstn 47 (format_subtitle s) = firstn 47 s /\
  format_subtitle (format_subtitle s) = format_subtitle s.
Proof.
  assert (Hlen : length (format_subtitle s) = Nat.min (length s) 50).
  { unfold format_subtitle. destruct (Nat.ltb_spec 50 (length s)); [|lia].
    rewrite length_app, length_firstn. change (length (lit "...")) with 3%nat. lia. }
  split; [exact Hlen|]. split.
  - unfold format_subtitle. destruct (Nat.ltb_spec 50 (length s)); [|reflexivity].
    rewrite firstn_app, length_firstn, firstn_firstn.
    replace (47 - Nat.min 47 (length s))%nat with 0%nat by lia.
    rewrite Nat.min_id. cbn [firstn]. now rewrite app_nil_r.
  - unfold format_subtitle at 1.
    destruct (Nat.ltb_spec 50 (length (format_subtitle s))); [lia | reflexivity].
Qed.

Lemma first_comment_None pr pos rows :
  first_comment pr pos rows = None -> ~ In pr (map pull_request_id rows).
Proof.
  revert pos. induction rows as [|row rest IH]; intros pos H; cbn in *; [tauto|].
  destruct (Z.eqb_spec (pull_request_id row) pr); [discriminate|].
  intros [Heq|Hin]; [congruence | exact (IH _ H Hin)].
Qed.

Lemma first_comment_Some pr pos rows pk row :
  first_comment pr pos rows = Some (pk, row) ->
  (pos <= pk)%nat /\ nth_error rows (pk - pos) = Some row /\ pull_request_id row = pr.
Proof.
  revert pos. induction rows as [|r rest IH]; intros pos H; cbn in H; [discriminate|].
  destruct (Z.eqb_spec (pull_request_id r) pr) as [Heq|Hne].
  - injection H as <- <-. rewrite Nat.sub_diag. auto.
  - destruct (IH _ H) as (Hle & Hn & Hp). split; [lia|]. split; [|exact Hp].
    replace (pk - pos)%nat with (S (pk - S pos)) by lia. exact Hn.
Qed.

Lemma map_insert_same {A B} (f : A -> B) (l : list A) (i : nat) (x y : A) :
  nth_error l i = Some x -> f y = f x -> map f (<[i := y]> l) = map f l.
Proof.
  revert i. induction l as [|a l IH]; intros [|i] H Hf; cbn in *; try discriminate.
  - injection H as ->. now rewrite Hf.
  - f_equal. now apply IH.
Qed.

Lemma create_or_update_comment_rows
  now pr_comment client repo pr_key body pr issue_list st st' r :
  create_or_update_comment now pr_comment client repo pr_key body pr issue_list st = (st', r) ->
  cache st' = cache st /\
  ((comments st' = comments st /\ exists e, r = Raise e) \/
   (r = Ok tt /\ pr_comment = None /\
    exists id, comments st' = comments st ++ [mkComment id pr now now issue_list]) \/
   (r = Ok tt /\
    exists pk row, pr_comment = Some (pk, row) /\
      comments st' =
        <[pk := mkComment (external_id row) (pull_request_id row) (created_at row) now
                  issue_list]> (comments st))).
Proof.
  unfold create_or_update_comment. intros H.
  destruct pr_comment as [[pk row]|].
  - destruct (update_comment client (repo_name repo) (external_id row) body);
      injection H as <- <-; cbn [cache comments]; split; eauto 10.
  - destruct (create_comment client (repo_name repo) pr_key body) as [b|];
      [destruct (b !! "id")|]; injection H as <- <-; cbn [cache comments]; split; eauto 10.
Qed.

Lemma create_or_update_comment_api_error
  now pr_comment client repo pr_key body pr issue_list st st' :
  create_or_update_comment now pr_comment client repo pr_key body pr issue_list st =
    (st', Raise ApiError) ->
  st' = st.
Proof.
  unfold create_or_update_comment. intros H.
  destruct pr_comment as [[pk row]|].
  - destruct (update_comment client (repo_name repo) (external_id row) body);
      injection H as <-; [discriminate | reflexivity].
  - destruct (create_comment client (repo_name repo) pr_key body) as [b|];
      [destruct (b !! "id")|]; injection H as <-; try discriminate; reflexivity.
Qed.

Section Workflow.

Variables Organization Project Integration : Type.
Variable DEBOUNCE_PR_COMMENT_CACHE_KEY : Z -> string.
Variable pr_to_issue_query : Z -> list (Z * Z * Z * list Z).
Variable get_organization : Z -> option Organization.
Variable has_pr_comment_bot : Organization -> bool.
Variable get_project : Z -> option Project.
Variable get_top_5_issues_by_count : list Z -> Project -> list snuba_row.
Variable groups : list Group.
Variable get_repository : Z -> option Repository.
Variable get_integration : Z -> option Integration.
Variable get_client : Integration -> Z -> GitHubAppsClient.
Variable now : Z.

Local Abbreviation github_comment_workflow :=
  (PrCommentWorkflow.github_comment_workflow Organization Project Integration
     DEBOUNCE_PR_COMMENT_CACHE_KEY pr_to_issue_query get_organization has_pr_comment_bot
     get_project get_top_5_issues_by_count groups get_repository get_integration
     get_client now).

(** Take a run apart along the branches of the workflow. *)
Ltac branches H :=
  unfold PrCommentWorkflow.github_comment_workflow, abandon in H;
  repeat match type of H with
         | context [match ?x with _ => _ end] => destruct x eqn:?
         | context [if ?x then _ else _] => destruct x eqn:?
         end.

(** What a run can do to the comment table and to the cache. *)
Lemma workflow_tables pr proj st st' r :
  github_comment_workflow pr proj st = (st', r) ->
  (cache st' = cache st \/ cache st' = cache st ∖ {[ DEBOUNCE_PR_COMMENT_CACHE_KEY pr ]}) /\
  (comments st' = comments st \/
   (r = Ok tt /\ first_comment pr 0 (comments st) = None /\
    exists id l, comments st' = comments st ++ [mkComment id pr now now (firstn 24 l)]) \/
   (r = Ok tt /\
    exists pk row l, first_comment pr 0 (comments st) = Some (pk, row) /\
      comments st' =
        <[pk := mkComment (external_id row) (pull_request_id row) (created_at row) now
                  (firstn 24 l)]> (comments st))).
Proof.
  intros H. branches H.
  all: try (injection H as <- <-; cbn [cache comments]; split; auto; fail).
  all: match goal with
       | E : create_or_update_comment _ _ _ _ _ _ _ _ _ = _ |- _ =>
           apply create_or_update_comment_rows in E; cbn [cache comments] in E;
           destruct E as [Hc Hrows]
       end.
  all: injection H as <- <-; cbn [cache comments]; rewrite ?Hc.
  all: split; [auto|].
  all: destruct Hrows as [[Hr _]|[(Hr & Hn & id & Hrows)|(Hr & pk & row & Hp & Hrows)]];
    try discriminate; eauto 10.
Qed.

(** X16: However a run ends, the comment table keeps at most one row per
    pull request: a row is added only when the pull request has none,
    and an edited row stays with its pull request. *)
Theorem workflow_keeps_one_row_per_pull_request pr proj st st' r :
  NoDup (map pull_request_id (comments st)) ->
  github_comment_workflow pr proj st = (st', r) ->
  NoDup (map pull_request_id (comments st')).
Proof.
  intros Hnd H. apply workflow_tables in H. destruct H as [_ H].
  destruct H as [->|[(_ & Hnone & id & l & ->)|(_ & pk & row & l & Hsome & ->)]].
  - exact Hnd.
  - rewrite map_app. cbn [map pull_request_id].
    apply NoDup_app. split; [exact Hnd|]. split.
    + intros x Hx Hx'. apply list_elem_of_In in Hx. apply list_elem_of_singleton in Hx'.
      subst x. exact (first_comment_None _ _ _ Hnone Hx).
    + apply NoDup_singleton.
  - apply first_comment_Some in Hsome. destruct Hsome as (_ & Hn & _).
    rewrite Nat.sub_0_r in Hn.
    rewrite (map_insert_same pull_request_id _ _ row); [exact Hnd | exact Hn | reflexivity].
Qed.

(** X17: However a run ends, no row of the comment table lists more than 24
    issues if none did before. *)
Theorem workflow_stores_at_most_24_issues pr proj st st' r :
  Forall (fun row => (length (group_ids row) <= 24)%nat) (comments st) ->
  github_comment_workflow pr proj st = (st', r) ->
  Forall (fun row => (length (group_ids row) <= 24)%nat) (comments st').
Proof.
  intros Hall H. apply workflow_tables in H. destruct H as [_ H].
  destruct H as [->|[(_ & _ & id & l & ->)|(_ & pk & row & l & _ & ->)]].
  - exact Hall.
  - apply Forall_app. split; [exact Hall|]. constructor; [|constructor].
    cbn [group_ids]. rewrite length_firstn. lia.
  - apply Forall_insert; [exact Hall|]. cbn [group_ids]. rewrite length_firstn. lia.
Qed.

(** X18: When the GitHub client fails with an ApiError, the run re-raises it
    after dropping the debounce key, and the comment table is as before. *)
Theorem workflow_api_error_drops_debounce_key pr proj st st' :
  github_comment_workflow pr proj st = (st', Raise ApiError) ->
  (DEBOUNCE_PR_COMMENT_CACHE_KEY pr ∉ cache st') /\ comments st' = comments st.
Proof.
  intros H. branches H; try discriminate H.
  all: injection H as <-.
  all: match goal with
       | E : create_or_update_comment _ _ _ _ _ _ _ _ _ = (_, Raise ApiError) |- _ =>
           apply create_or_update_comment_api_error in E; subst
       end.
  all: cbn [cache comments]; split; [|reflexivity].
  all: rewrite elem_of_difference, elem_of_singleton; tauto.
Qed.

(** X19: When a run ends normally and the debounce key is still cached, then
    either the organization does not have the comment bot, or the table
    now holds a row for the pull request, updated at this run, with the
    first 24 issues of the pull request. *)
Theorem debounce_key_survives_only_after_comment pr proj st st' :
  github_comment_workflow pr proj st = (st', Ok tt) ->
  DEBOUNCE_PR_COMMENT_CACHE_KEY pr ∈ cache st' ->
  exists gh_repo_id pr_key org_id issue_list rest organization,
    pr_to_issue_query pr = (gh_repo_id, pr_key, org_id, issue_list) :: rest /\
    get_organization org_id = Some organization /\
    ((has_pr_comment_bot organization = false /\ comments st' = comments st) \/
     (has_pr_comment_bot organization = true /\
      exists row, In row (comments st') /\
        pull_request_id row = pr /\ updated_at row = now /\
        group_ids row = firstn 24 issue_list)).
Proof.
  intros H Hkey. branches H; try discriminate H.
  all: try (injection H as <-; cbn [cache] in Hkey;
            rewrite elem_of_difference, elem_of_singleton in Hkey; tauto).
  all: try (injection H as <-; do 6 eexists; split; [reflexivity|]; split; [eassumption|];
            left; split; [|reflexivity];
            match goal with
            | E : negb _ = true |- _ => apply negb_true_iff in E; exact E
            end).
  all: match goal with
       | E : create_or_update_comment _ _ _ _ _ _ _ _ _ = _ |- _ =>
           apply create_or_update_comment_rows in E; cbn [cache comments] in E;
           destruct E as [Hc Hrows]
       end.
  all: try (injection H as <- Hr; discriminate Hr).
  all: injection H as <- Hr.
  all: do 6 eexists; split; [reflexivity|]; split; [eassumption|]; right.
  all: split; [match goal with
               | E : negb _ = false |- _ => apply negb_false_iff in E; exact E
               end|].
  all: destruct Hrows as [[_ [e He]]|[(_ & Hn & id & ->)|(_ & pk & row & Hp & ->)]].
  all: try (subst; discriminate).
  all: try (eexists; split; [apply in_or_app; right; left; reflexivity|];
            cbn; auto; fail).
  all: try (apply first_comment_Some in Hp; destruct Hp as (_ & Hn & Hprid);
            rewrite Nat.sub_0_r in Hn;
            eexists; split;
            [apply list_elem_of_In, list_elem_of_lookup; exists pk;
             apply list_lookup_insert_eq; apply nth_error_Some; congruence|];
            cbn; auto; fail).
Qed.

End Workflow.

Lemma workflow_keeps_one_row_per_pull_request_witness :
  exists st' r,
    sample_workflow sample_client_ok 7 1 sample_state = (st', r) /\
    NoDup (map pull_request_id (comments st')).
Proof.
  destruct (sample_workflow sample_client_ok 7 1 sample_state) as [st' r] eqn:E.
  exists st', r. split; [reflexivity|].
  apply (workflow_keeps_one_row_per_pull_request Z unit unit sample_key sample_query sample_organization
           sample_bot sample_project sample_top_5 sample_groups sample_repository
           sample_integration (fun _ _ => sample_client_ok) 1000
           7 1 sample_state st' r); [constructor | exact E].
Defined.

Lemma workflow_stores_at_most_24_issues_witness :
  exists st' r,
    sample_workflow sample_client_ok 7 1 sample_state = (st', r) /\
    Forall (fun row => (length (group_ids row) <= 24)%nat) (comments st').
Proof.
  destruct (sample_workflow sample_client_ok 7 1 sample_state) as [st' r] eqn:E.
  exists st', r. split; [reflexivity|].
  apply (workflow_stores_at_most_24_issues Z unit unit sample_key sample_query sample_organization
           sample_bot sample_project sample_top_5 sample_groups sample_repository
           sample_integration (fun _ _ => sample_client_ok) 1000
           7 1 sample_state st' r); [constructor | exact E].
Defined.

Lemma workflow_api_error_drops_debounce_key_witness :
  exists st',
    sample_workflow sample_client_failing 7 1 sample_state = (st', Raise ApiError) /\
    ("pr-comment" ∉ cache st') /\ comments st' = comments sample_state.
Proof.
  eexists. split; [reflexivity|].
  apply (workflow_api_error_drops_debounce_key Z unit unit sample_key sample_query sample_organization
           sample_bot sample_project sample_top_5 sample_groups sample_repository
           sample_integration (fun _ _ => sample_client_failing) 1000
           7 1 sample_state).
  reflexivity.
Defined.

Lemma debounce_key_survives_only_after_comment_witness :
  exists st',
    sample_workflow sample_client_ok 7 1 sample_state = (st', Ok tt) /\
    exists row, In row (comments st') /\
      pull_request_id row = 7 /\ updated_at row = 1000 /\ group_ids row = [101; 102].
Proof.
  eexists. split; [reflexivity|].
  destruct (debounce_key_survives_only_after_comment Z unit unit sample_key sample_query sample_organization
           sample_bot sample_project sample_top_5 sample_groups sample_repository
           sample_integration (fun _ _ => sample_client_ok) 1000
              7 1 sample_state _ eq_refl)
    as (gh & key & org & l & rest & o & Hq & Ho & [[Hoff _]|[_ Hrow]]).
  - change (sample_key 7 ∈ ({[ "pr-comment" ]} : gset string)).
    apply elem_of_singleton. reflexivity.
  - injection Hq as <- <- <- <- <-. injection Ho as <-. discriminate Hoff.
  - injection Hq as <- <- <- <- <-. exact Hrow.
Defined.

End PrCommentWorkflowFacts.

Module GitlabCommitContextFacts.
Import Gitlab GitlabCommitContext.

Lemma rstrip_slash_cons c s :
  rstrip_slash (String c s) =
  match rstrip_slash s with
  | EmptyString => if Ascii.eqb c "/"%char then EmptyString else String c EmptyString
  | r => String c r
  end.
Proof. reflexivity. Qed.

Lemma rstrip_slash_no_trailing_slash s : ends_with_slash (rstrip_slash s) = false.
Proof.
  induction s as [|c s IH]; [reflexivity|]. rewrite rstrip_slash_cons.
  destruct (rstrip_slash s) as [|c' r] eqn:E.
  - destruct (Ascii.eqb c "/"%char) eqn:Ec; [reflexivity|]. cbn. exact Ec.
  - exact IH.
Qed.

Lemma rstrip_slash_decompose s :
  exists n, s = rstrip_slash s +:+ slashes n.
Proof.
  induction s as [|c s [n IH]]; [exists 0%nat; reflexivity|].
  rewrite rstrip_slash_cons. destruct (rstrip_slash s) as [|c' r] eqn:E.
  - destruct (Ascii.eqb_spec c "/"%char) as [->|_].
    + exists (S n). cbn in IH |- *. now rewrite IH at 1.
    + exists n. cbn in IH |- *. now rewrite IH at 1.
  - exists n. cbn in IH |- *. now rewrite IH at 1.
Qed.

(** X20: The cleaned url is the entered url without its trailing slashes: it
    does not end with a slash, and the entered url is the cleaned one
    followed by slashes only. *)
Theorem clean_url_strips_trailing_slashes (cleaned_data : gmap string pyval) (s : string) :
  cleaned_data !! "url" = Some (VStr s) ->
  exists r n,
    clean_url cleaned_data = Ok r /\
    s = r +:+ slashes n /\
    ends_with_slash r = false.
Proof.
  intros H. destruct (rstrip_slash_decompose s) as [n Hn].
  exists (rstrip_slash s), n. unfold clean_url, getitem. rewrite H. cbn [bind].
  split; [reflexivity|]. split; [exact Hn | apply rstrip_slash_no_trailing_slash].
Qed.

Lemma clean_url_strips_trailing_slashes_witness :
  exists r n,
    clean_url {[ "url" := VStr "https://gitlab.example.com//" ]} = Ok r /\
    "https://gitlab.example.com//" = r +:+ slashes n /\
    ends_with_slash r = false.
Proof.
  apply (clean_url_strips_trailing_slashes
           {[ "url" := VStr "https://gitlab.example.com//" ]}
           "https://gitlab.example.com//").
  apply lookup_singleton_eq.
Defined.

Section CommitContext.

Variable Repository : Type.
Variable strptime : pyval -> result GitlabCommitContext.exn Z.
Variable strftime_utc_millis : Z -> string.
Variable get_blame_for_file :
  Repository -> string -> string -> pyval ->
  result GitlabCommitContext.exn (option (list pyval)).

Local Abbreviation committed_at := (GitlabCommitContext.committed_at strptime).
Local Abbreviation max_from := (GitlabCommitContext.max_from strptime).
Local Abbreviation max_by_date := (GitlabCommitContext.max_by_date strptime).
Local Abbreviation get_commit_context :=
  (GitlabCommitContext.get_commit_context Repository strptime strftime_utc_millis
     get_blame_for_file).

Lemma max_from_latest items : forall best best_key commit,
  committed_at best = Ok best_key ->
  max_from best best_key items = Ok commit ->
  (commit = best \/ In commit items) /\
  exists t, committed_at commit = Ok t /\ best_key <= t /\
    forall other, In other items -> exists t', committed_at other = Ok t' /\ t' <= t.
Proof.
  induction items as [|item rest IH]; intros best best_key commit Hb H; cbn in H.
  - injection H as <-. split; [left; reflexivity|].
    exists best_key. repeat split; [exact Hb | lia | intros other []].
  - destruct (committed_at item) as [k|] eqn:Ek; [|discriminate]. cbn [bind] in H.
    destruct (Z.ltb_spec best_key k) as [Hlt|Hge].
    + destruct (IH _ _ _ Ek H) as ([->|Hin] & t & Ht & Hle & Hall).
      * split; [right; left; reflexivity|]. exists t. repeat split; [exact Ht | lia |].
        intros other [<-|Ho]; [exists k; split; [exact Ek | lia] | exact (Hall _ Ho)].
      * split; [right; right; exact Hin|]. exists t. repeat split; [exact Ht | lia |].
        intros other [<-|Ho]; [exists k; split; [exact Ek | lia] | exact (Hall _ Ho)].
    + destruct (IH _ _ _ Hb H) as (Hwhich & t & Ht & Hle & Hall).
      split; [destruct Hwhich; [left | right; right]; assumption|].
      exists t. repeat split; [exact Ht | exact Hle |].
      intros other [<-|Ho]; [exists k; split; [exact Ek | lia] | exact (Hall _ Ho)].
Qed.

Lemma max_by_date_latest items commit :
  max_by_date items = Ok commit ->
  In commit items /\
  exists t, committed_at commit = Ok t /\
    forall other, In other items -> exists t', committed_at other = Ok t' /\ t' <= t.
Proof.
  destruct items as [|item rest]; [discriminate|]. cbn [GitlabCommitContext.max_by_date].
  destruct (committed_at item) as [k|] eqn:Ek; [|discriminate]. cbn [bind]. intros H.
  destruct (max_from_latest _ _ _ _ Ek H) as (Hwhich & t & Ht & Hle & Hall).
  split; [destruct Hwhich as [->|Hin]; [left; reflexivity | right; exact Hin]|].
  exists t. split; [exact Ht|].
  intros other [<-|Ho]; [exists k; split; [exact Ek | exact Hle] | exact (Hall _ Ho)].
Qed.

(** X21: A commit context that is returned describes one of the blamed
    commits whose commit date is not before that of any other blamed
    commit, all dates being well-formed; its id is that commit's id and
    its date is that commit's date, printed in UTC with a final Z. *)
Theorem commit_context_is_latest_commit
  (repo : Repository) (filepath ref : string) (event_frame info : gmap string pyval) :
  get_commit_context repo filepath ref event_frame = Ok (Some info) ->
  exists lineno blame_range blame commitInfo t,
    event_frame !! "lineno" = Some lineno /\
    get_blame_for_file repo filepath ref lineno = Ok (Some blame_range) /\
    In blame blame_range /\
    get blame "commit" VNone = Ok commitInfo /\
    committed_at blame = Ok t /\
    (forall other, In other blame_range ->
       exists t', committed_at other = Ok t' /\ t' <= t) /\
    (exists d, commitInfo = VDict d /\
       info !! "commitId" = Some (match d !! "id" with Some x => x | None => VNone end)) /\
    info !! "committedDate" = Some (VStr (strftime_utc_millis t +:+ "Z")).
Proof.
  unfold GitlabCommitContext.get_commit_context. intros H.
  destruct (event_frame !! "lineno") as [lineno|] eqn:El; [|discriminate H].
  destruct (negb (truthy lineno)); [discriminate H|].
  destruct (get_blame_for_file repo filepath ref lineno) as [[blame_range|]|] eqn:Eb;
    cbn [bind] in H; try discriminate H.
  destruct (max_by_date blame_range) as [commit|e] eqn:Em;
    [|destruct e; discriminate H].
  destruct (max_by_date_latest _ _ Em) as (Hin & t & Ht & Hall).
  destruct (get commit "commit" VNone) as [commitInfo|] eqn:Ec; [|discriminate H].
  cbn [bind] in H. destruct (negb (truthy commitInfo)) eqn:Etruthy; [discriminate H|].
  GitlabFacts.unbind H. injection H as <-.
  assert (Hsame : get commit "commit" (VDict ∅) = Ok commitInfo).
  { destruct commit as [| | | | |d]; try discriminate Ec. cbn in Ec |- *.
    destruct (d !! "commit"); [exact Ec|].
    injection Ec as <-. discriminate Etruthy. }
  assert (Hparsed : a0 = t).
  { unfold GitlabCommitContext.committed_at in Ht. rewrite Hsame in Ht. cbn [bind] in Ht.
    rewrite E in Ht. cbn [bind] in Ht. congruence. }
  subst a0.
  exists lineno, blame_range, commit, commitInfo, t.
  repeat split; try assumption; try reflexivity.
  destruct commitInfo as [| | | | |d]; try discriminate E1.
  exists d. split; [reflexivity|]. cbn in E1. injection E1 as <-. reflexivity.
Qed.

End CommitContext.

Lemma commit_context_is_latest_commit_witness :
  exists info,
    sample_commit_context = Ok (Some info) /\
    exists lineno blame_range blame commitInfo t,
      ({[ "lineno" := VInt 12 ]} : gmap string pyval) !! "lineno" = Some lineno /\
      @Ok GitlabCommitContext.exn _ (Some [sample_blame "old" 5; sample_blame "new" 9]) =
        Ok (Some blame_range) /\
      In blame blame_range /\
      get blame "commit" VNone = Ok commitInfo /\
      committed_at sample_strptime blame = Ok t /\
      (forall other, In other blame_range ->
         exists t', committed_at sample_strptime other = Ok t' /\ t' <= t) /\
      (exists d, commitInfo = VDict d /\
         info !! "commitId" = Some (match d !! "id" with Some x => x | None => VNone end)) /\
      info !! "committedDate" = Some (VStr ("date" +:+ "Z")).
Proof.
  eexists. split; [reflexivity|].
  apply (commit_context_is_latest_commit unit sample_strptime (fun _ => "date")
           (fun _ _ _ _ => Ok (Some [sample_blame "old" 5; sample_blame "new" 9]))
           tt "app.py" "main" {[ "lineno" := VInt 12 ]}).
  reflexivity.
Defined.

Example sample_commit_context_is_new :
  (r <- sample_commit_context ;;
   Ok (match r with Some info => info !! "commitId" | None => None end)) =
  Ok (Some (VStr "new")).
Proof. vm_compute. reflexivity. Qed.


End GitlabCommitContextFacts.

Module GitlabSetupFacts.
Import Gitlab.

Section GroupInfo.

Variable sha1_hexdigest : string -> string.
Variable urlparse_netloc : string -> string.
Variable py_repr : pyval -> string.
Variable oauth_scopes : list string.

Local Abbreviation build_integration :=
  (Gitlab.build_integration sha1_hexdigest urlparse_netloc py_repr oauth_scopes).

(** X22: The group lookup never lets an ApiError of the client out: with the
    four keys it logs present, the error becomes an IntegrationError; an
    answer of the client is passed on as it is. *)
Theorem get_group_info_converts_api_error (e : env) (access_token installation_data : pyval) :
  get_group_info e access_token installation_data <> Raise ApiError /\
  (forall json,
      get_group_info e access_token installation_data = Ok json ->
      exists url verify_ssl group,
        subscript installation_data "url" = Ok url /\
        subscript installation_data "verify_ssl" = Ok verify_ssl /\
        subscript installation_data "group" = Ok group /\
        client_get_group e url access_token verify_ssl group = Ok json) /\
  (forall url verify_ssl group include_subgroups,
      subscript installation_data "url" = Ok url ->
      subscript installation_data "verify_ssl" = Ok verify_ssl ->
      subscript installation_data "group" = Ok group ->
      subscript installation_data "include_subgroups" = Ok include_subgroups ->
      client_get_group e url access_token verify_ssl group = Raise ApiError ->
      get_group_info e access_token installation_data =
      Raise (IntegrationError "The requested GitLab group could not be found.")).
Proof.
  unfold get_group_info. split; [|split].
  - destruct (subscript installation_data "url") as [url|x] eqn:E1; cbn [bind];
      [|intros H; injection H as ->;
        destruct installation_data; cbn in E1; try discriminate E1;
        unfold getitem in E1; destruct (_ !! _); discriminate E1].
    destruct (subscript installation_data "verify_ssl") as [ssl|x] eqn:E2; cbn [bind];
      [|intros H; injection H as ->;
        destruct installation_data; cbn in E2; try discriminate E2;
        unfold getitem in E2; destruct (_ !! _); discriminate E2].
    destruct (subscript installation_data "group") as [grp|x] eqn:E3; cbn [bind];
      [|intros H; injection H as ->;
        destruct installation_data; cbn in E3; try discriminate E3;
        unfold getitem in E3; destruct (_ !! _); discriminate E3].
    destruct (client_get_group e url access_token ssl grp) as [json|x]; [discriminate|].
    destruct x; try discriminate.
    destruct (subscript installation_data "include_subgroups") as [sub|x] eqn:E4;
      cbn [bind]; [discriminate|].
    intros H; injection H as ->.
    destruct installation_data; cbn in E4; try discriminate E4.
    unfold getitem in E4. destruct (_ !! _); discriminate E4.
  - intros json H.
    destruct (subscript installation_data "url") as [url|]; [|discriminate H].
    destruct (subscript installation_data "verify_ssl") as [ssl|]; [|discriminate H].
    destruct (subscript installation_data "group") as [grp|]; [|discriminate H].
    cbn [bind] in H. exists url, ssl, grp. repeat split.
    destruct (client_get_group e url access_token ssl grp) as [j|x]; [exact H|].
    destruct x; try discriminate H.
    destruct (subscript installation_data "include_subgroups"); discriminate H.
  - intros url ssl grp sub -> -> -> -> Hc. cbn [bind]. rewrite Hc. reflexivity.
Qed.

Lemma rstrip_slash_append_slash s : rstrip_slash (s +:+ "/") = rstrip_slash s.
Proof.
  induction s as [|c s IH]; [reflexivity|].
  change (String c s +:+ "/") with (String c (s +:+ "/")).
  cbn [rstrip_slash]. now rewrite IH.
Qed.

Lemma append_empty_r s : s +:+ EmptyString = s.
Proof.
  induction s as [|c s IH]; [reflexivity|].
  change (String c s +:+ EmptyString) with (String c (s +:+ EmptyString)).
  now rewrite IH.
Qed.

(** X23: An installation without a group is an instance-level integration: it
    is named after the GitLab host, its external id is the host followed
    by ":_instance_", its domain name is the host without trailing
    slashes, it has no group id and does not include subgroups. *)
Theorem build_integration_without_group
  (e : env) (state integration inst : gmap string pyval) :
  build_integration e state = Ok integration ->
  state !! "installation_data" = Some (VDict inst) ->
  truthy (match inst !! "group" with Some g => g | None => VNone end) = false ->
  exists host metadata,
    hostname_of urlparse_netloc state = Some host /\
    integration !! "name" = Some (VStr host) /\
    integration !! "external_id" = Some (VStr (host +:+ ":_instance_")) /\
    integration !! "metadata" = Some (VDict metadata) /\
    metadata !! "instance" = Some (VStr host) /\
    metadata !! "domain_name" = Some (VStr (rstrip_slash host)) /\
    metadata !! "group_id" = Some VNone /\
    metadata !! "include_subgroups" = Some (VBool false).
Proof.
  unfold Gitlab.build_integration. intros H Hinst Hgroup. GitlabFacts.unbind H.
  unfold getitem in *. rewrite Hinst in *.
  repeat match goal with
         | E : Ok _ = Ok _ |- _ => injection E as <-
         end.
  cbn [subscript dict_get] in *. unfold getitem in *.
  repeat match goal with
         | E : Ok _ = Ok _ |- _ => injection E as <-
         end.
  rewrite Hgroup in *.
  repeat match goal with
         | E : Ok _ = Ok _ |- _ => injection E as <-
         end.
  cbn [fst snd dict_get] in *. rewrite !lookup_empty in *.
  repeat match goal with
         | E : Ok _ = Ok _ |- _ => injection E as <-
         end.
  destruct (inst !! "url") as [url|] eqn:Eu; [|discriminate].
  repeat match goal with
         | E : Ok _ = Ok _ |- _ => injection E as <-
         end.
  destruct url as [| | |u| |]; try discriminate.
  repeat match goal with
         | E : Ok _ = Ok _ |- _ => injection E as <-
         end.
  eexists (urlparse_netloc u), _. unfold hostname_of. rewrite Hinst, Eu.
  split; [reflexivity|]. split; [reflexivity|]. split; [reflexivity|].
  split; [reflexivity|]. split; [reflexivity|]. split; [|split; reflexivity].
  assert (Hd : rstrip_slash
                 (urlparse_netloc u +:+ "/" +:+ to_str py_repr (VStr EmptyString)) =
               rstrip_slash (urlparse_netloc u)).
  { unfold to_str. rewrite append_empty_r. apply rstrip_slash_append_slash. }
  rewrite <- Hd. reflexivity.
Qed.


End GroupInfo.

Lemma build_integration_without_group_witness :
  exists integration host metadata,
    sample_build 7 = Ok integration /\
    hostname_of sample_netloc sample_state = Some host /\
    integration !! "name" = Some (VStr host) /\
    integration !! "external_id" = Some (VStr (host +:+ ":_instance_")) /\
    integration !! "metadata" = Some (VDict metadata) /\
    metadata !! "instance" = Some (VStr host) /\
    metadata !! "domain_name" = Some (VStr (rstrip_slash host)) /\
    metadata !! "group_id" = Some VNone /\
    metadata !! "include_subgroups" = Some (VBool false).
Proof.
  eexists.
  destruct (build_integration_without_group sample_digest sample_netloc sample_repr
              ["api"] (sample_env 7) sample_state _ _ eq_refl eq_refl eq_refl)
    as (host & metadata & H).
  exists host, metadata. split; [reflexivity | exact H].
Defined.

End GitlabSetupFacts.

Module SlackUnlinkIdentityFacts.
Import SlackUnlinkIdentity.

Section View.

Variable unsign : string -> option (gmap string string).
Variable get_identity_or_404 : Z -> string -> result exn (string * Integration * Z).
Variable delete_is_refused : bool.

Local Abbreviation handle :=
  (SlackUnlinkIdentity.handle unsign get_identity_or_404 delete_is_refused).

Lemma handle_identities user method signed_params st st' r :
  handle user method signed_params st = (st', r) ->
  (identities st' = identities st /\
   forall context, r <> Ok (Render "sentry/integrations/slack/unlinked.html" context)) \/
  (method = "POST" /\
   exists params integration_id organization integration idp slack_id,
     unsign signed_params = Some params /\
     params !! "integration_id" = Some integration_id /\
     get_identity_or_404 user integration_id = Ok (organization, integration, idp) /\
     params !! "slack_id" = Some slack_id /\
     identities st' =
       List.filter
         (fun row => negb ((idp_id row =? idp) && String.eqb (external_id row) slack_id))
         (identities st) /\
     events st' =
       events st ++ [SlackResponse integration SUCCESS_UNLINKED_MESSAGE "unlink"] /\
     (r = Raise (KeyError "channel_id") \/
      exists channel_id,
        params !! "channel_id" = Some channel_id /\
        r = Ok (Render "sentry/integrations/slack/unlinked.html"
                  [("channel_id", channel_id);
                   ("team_id", integration_external_id integration)]))).
Proof.
  unfold SlackUnlinkIdentity.handle, param. intros H.
  destruct (unsign signed_params) as [params|] eqn:Eu;
    [|injection H as <- <-; left; split; [reflexivity | intros context; discriminate]].
  destruct (params !! "integration_id") as [integration_id|] eqn:Ei;
    [|injection H as <- <-; left; split; [reflexivity | intros context; discriminate]].
  destruct (get_identity_or_404 user integration_id) as [[[organization integration] idp]|]
    eqn:Eg;
    [|injection H as <- <-; left; split; [reflexivity | intros context; discriminate]].
  destruct (String.eqb_spec method "POST") as [->|Hne]; cbn [negb] in H;
    [|injection H as <- <-; left; split; [reflexivity | intros context; discriminate]].
  destruct (params !! "slack_id") as [slack_id|] eqn:Es;
    [|injection H as <- <-; left; split; [reflexivity | intros context; discriminate]].
  destruct delete_is_refused;
    [injection H as <- <-; left; split; [reflexivity | intros context; discriminate]|].
  right. split; [reflexivity|].
  exists params, integration_id, organization, integration, idp, slack_id.
  destruct (params !! "channel_id") as [channel_id|] eqn:Ec; injection H as <- <-;
    cbn [identities events]; repeat split; eauto.
Qed.

(** X24: An identity row disappears only through a POST with a valid
    signature, and only if it belongs to the identity provider resolved
    for the user and carries the Slack id of the signed parameters; no
    row is ever added or changed. *)
Theorem handle_deletes_only_the_signed_identity
  (user : Z) (method signed_params : string) (st st' : state) (r : result exn response)
  (row : Identity) :
  handle user method signed_params st = (st', r) ->
  (In row (identities st') -> In row (identities st)) /\
  (In row (identities st) -> ~ In row (identities st') ->
   method = "POST" /\
   exists params integration_id organization integration,
     unsign signed_params = Some params /\
     params !! "integration_id" = Some integration_id /\
     get_identity_or_404 user integration_id = Ok (organization, integration, idp_id row) /\
     params !! "slack_id" = Some (external_id row)).
Proof.
  intros H. apply handle_identities in H.
  destruct H as [[-> _]|(-> & params & iid & org & integ & idp & slack & Hu & Hi & Hg & Hs
                         & -> & _)].
  - split; [tauto|]. intros Hin Hnot. contradiction.
  - split; [intros Hin; apply filter_In in Hin; tauto|].
    intros Hin Hnot. split; [reflexivity|].
    destruct ((idp_id row =? idp) && String.eqb (external_id row) slack) eqn:Em.
    + apply andb_true_iff in Em. destruct Em as [Hz Hx].
      apply Z.eqb_eq in Hz. apply String.eqb_eq in Hx. subst idp slack.
      exists params, iid, org, integ. auto.
    + exfalso. apply Hnot, filter_In. rewrite Em. auto.
Qed.

(** X25: When the view answers with the unlinked page, no identity of the
    resolved provider with the signed Slack id is left, every other
    identity is kept, and one confirmation has been sent to Slack. *)
Theorem handle_unlinked_page_means_unlinked
  (user : Z) (method signed_params : string) (st st' : state)
  (context : list (string * string)) :
  handle user method signed_params st =
    (st', Ok (Render "sentry/integrations/slack/unlinked.html" context)) ->
  exists params integration_id organization integration idp slack_id,
    unsign signed_params = Some params /\
    params !! "integration_id" = Some integration_id /\
    get_identity_or_404 user integration_id = Ok (organization, integration, idp) /\
    params !! "slack_id" = Some slack_id /\
    (forall row, In row (identities st') <->
       In row (identities st) /\ ~ (idp_id row = idp /\ external_id row = slack_id)) /\
    events st' = events st ++ [SlackResponse integration SUCCESS_UNLINKED_MESSAGE "unlink"].
Proof.
  intros H. pose proof H as H'. apply handle_identities in H'.
  destruct H' as [Hsame|(-> & params & iid & org & integ & idp & slack & Hu & Hi & Hg & Hs
                         & Hrows & Hev & _)].
  - exfalso. destruct Hsame as [_ Hno]. exact (Hno context eq_refl).
  - exists params, iid, org, integ, idp, slack.
    split; [exact Hu|]. split; [exact Hi|]. split; [exact Hg|]. split; [exact Hs|].
    split; [|exact Hev].
    intros row. rewrite Hrows, filter_In. split.
    + intros [Hin Hk]. split; [exact Hin|]. intros [Hz Hx]. subst.
      now rewrite Z.eqb_refl, String.eqb_refl in Hk.
    + intros [Hin Hno]. split; [exact Hin|].
      destruct (Z.eqb_spec (idp_id row) idp), (String.eqb_spec (external_id row) slack);
        cbn; try reflexivity. exfalso. apply Hno. auto.
Qed.

End View.

Lemma handle_deletes_only_the_signed_identity_witness :
  exists st' r,
    sample_handle 1 "POST" "signed" sample_state = (st', r) /\
    identities st' = [mkIdentity 5 "U2" 2; mkIdentity 6 "U1" 3] /\
    (In (mkIdentity 5 "U2" 2) (identities st') ->
     In (mkIdentity 5 "U2" 2) (identities sample_state)).
Proof.
  eexists _, _. split; [reflexivity|]. split; [reflexivity|].
  refine (proj1 (handle_deletes_only_the_signed_identity sample_unsign sample_identity
                   false 1 "POST" "signed" sample_state _ _ (mkIdentity 5 "U2" 2) _)).
  reflexivity.
Defined.

Lemma handle_unlinked_page_means_unlinked_witness :
  exists st' params integration_id organization integration idp slack_id,
    sample_handle 1 "POST" "signed" sample_state =
      (st', Ok (Render "sentry/integrations/slack/unlinked.html"
                  [("channel_id", "C1"); ("team_id", "T1")])) /\
    sample_unsign "signed" = Some params /\
    params !! "integration_id" = Some integration_id /\
    sample_identity 1 integration_id = Ok (organization, integration, idp) /\
    params !! "slack_id" = Some slack_id /\
    (forall row, In row (identities st') <->
       In row (identities sample_state) /\
       ~ (idp_id row = idp /\ external_id row = slack_id)) /\
    events st' =
      events sample_state ++ [SlackResponse integration SUCCESS_UNLINKED_MESSAGE "unlink"].
Proof.
  eexists.
  destruct (handle_unlinked_page_means_unlinked sample_unsign sample_identity false
              1 "POST" "signed" sample_state _ _ eq_refl)
    as (params & iid & org & integ & idp & slack & H).
  exists params, iid, org, integ, idp, slack. split; [reflexivity | exact H].
Defined.

End SlackUnlinkIdentityFacts.
